(** * Settings API (core/server/api/v0.1/settings.js)

    A shallow embedding of the v0.1 settings API: the helpers
    [settingsFilter], [settingsResult] and [canEditAllSettings], and the
    five API methods [browse], [read], [edit], [upload] and [download].

    Promises are modelled by a state-and-error monad over a [World] that
    holds the settings cache, the files of the content folder and a log of
    the calls made to the collaborators (permission engine, document
    checker, settings model, file system, url service, site app). *)

From Stdlib Require Import String Ascii List ZArith Bool.
From stdpp Require Import base option list gmap strings countable.

Import ListNotations.
Open Scope string_scope.
Open Scope list_scope.
Set Warnings "-register-all".

(** ** JavaScript values *)

(** The values a caller can pass where the code is duck typed (a setting's
    [value], the [options] argument of [edit], a request [context]).
    Numbers are restricted to integers; [NaN] and fractions do not occur. *)
Inductive JsValue : Type :=
| JUndefined
| JNull
| JBool (b : bool)
| JNumber (n : Z)
| JString (s : string)
| JArray (items : list JsValue)
| JObject (props : list (string * JsValue)).

(** [_.isString] *)
Definition isString (v : JsValue) : bool :=
  match v with JString _ => true | _ => false end.

(** Truthiness, as tested by [!x], [x || y], [x && y] and [if (x)]. *)
Definition truthy (v : JsValue) : bool :=
  match v with
  | JUndefined | JNull => false
  | JBool b => b
  | JNumber n => negb (n =? 0)%Z
  | JString s => negb (String.eqb s "")
  | JArray _ | JObject _ => true
  end.

Fixpoint assoc {A : Type} (k : string) (l : list (string * A)) : option A :=
  match l with
  | [] => None
  | (k', v) :: l' => if String.eqb k' k then Some v else assoc k l'
  end.

(** Property access [v.p] on a value that is neither [undefined] nor [null]
    (every access below is guarded by a truthiness test).  Only the own
    properties of objects are found: the properties read in this file
    ([context], [internal]) exist on no primitive and on no array. *)
Definition js_get (v : JsValue) (p : string) : JsValue :=
  match v with
  | JObject props => default JUndefined (assoc p props)
  | _ => JUndefined
  end.

(** [options.context && options.context.internal], as a condition. *)
Definition isInternal (context : JsValue) : bool :=
  truthy context && truthy (js_get context "internal").

(** ** Errors *)

(** [common.i18n.t(path, bindings)]: the message is kept symbolic. *)
Inductive Message : Type :=
| i18n_t (path : string) (bindings : list (string * string)).

Inductive ErrorType : Type :=
| NotFoundError
| NoPermissionError
| BadRequestError
| ValidationError
| InternalServerError.

(** What can be thrown or be the reason of a rejected promise: an error of
    one of the [common.errors] classes (built from the options [message],
    [help], [code] and [err]), a plain error of the platform such as a file
    system failure with its [code], or a runtime [TypeError]. *)
Inductive JsError : Type :=
| GhostError (errorType : ErrorType) (message help : option Message)
             (code : option string) (err : option JsError)
| SystemError (code : option string) (description : string)
| TypeError (description : string).

(** [err.code].  An error of the [common.errors] classes that was given no
    [code] takes the one of the error it wraps. *)
Fixpoint err_code (e : JsError) : option string :=
  match e with
  | GhostError _ _ _ (Some c) _ => Some c
  | GhostError _ _ _ None (Some inner) => err_code inner
  | GhostError _ _ _ None None => None
  | SystemError c _ => c
  | TypeError _ => None
  end.

(** [common.errors.utils.isIgnitionError] *)
Definition isIgnitionError (e : JsError) : bool :=
  match e with GhostError _ _ _ _ _ => true | _ => false end.

Definition errorTypeOf (e : JsError) : option ErrorType :=
  match e with GhostError t _ _ _ _ => Some t | _ => None end.

Definition problemFindingSetting (key : string) : JsError :=
  GhostError NotFoundError
    (Some (i18n_t "errors.api.settings.problemFindingSetting" [("key", key)]))
    None None None.

Definition resourceNotFound : JsError :=
  GhostError NotFoundError (Some (i18n_t "errors.errors.resourceNotFound" []))
    None None None.

Definition accessCoreSettingFromExtReq : JsError :=
  GhostError NoPermissionError
    (Some (i18n_t "errors.api.settings.accessCoreSettingFromExtReq" []))
    None None None.

Definition noPermissionToEditSettings : JsError :=
  GhostError NoPermissionError
    (Some (i18n_t "errors.api.settings.noPermissionToEditSettings" []))
    None None None.

Definition noPermissionToReadSettings : JsError :=
  GhostError NoPermissionError
    (Some (i18n_t "errors.api.settings.noPermissionToReadSettings" []))
    None None None.

Definition activeThemeSetViaAPI : JsError :=
  GhostError BadRequestError
    (Some (i18n_t "errors.api.settings.activeThemeSetViaAPI.error" []))
    (Some (i18n_t "errors.api.settings.activeThemeSetViaAPI.help" []))
    None None.

(** ** Settings *)

(** A cached setting, as in the example of [settingsResult]'s comment
    (the timestamps are left out). *)
Record Setting : Type := mkSetting {
  s_id : string;
  s_key : string;
  s_value : string;
  s_type : string
}.

(** An entry of an [edit] batch as the caller passes it, and as it is after
    the "clean data" loop, when its value is a string or [undefined]. *)
Record RawEntry : Type := mkRaw { r_key : string; r_value : JsValue }.
Record Entry : Type := mkEntry { e_key : string; e_value : option string }.

(** Modelled from the spec: SettingsCache (services/settings/cache), "a
    mapping from key to SettingValue" with [get(key)], an "exact-key lookup,
    no mutation", and [getAll()], a "full snapshot".  The snapshot is the
    list of the cached settings in the enumeration order of the keyed
    object; [get] finds the setting stored under the key, which is the
    setting that carries it. *)
Definition settingsCache_get (cache : list Setting) (key : string)
  : option Setting :=
  List.find (fun s => String.eqb (s_key s) key) cache.

Definition settingsCache_getAll (cache : list Setting) : list Setting := cache.

(** ** Helpers *)

(** [String.prototype.split] with a one-character separator. *)
Fixpoint split (sep : ascii) (s : string) : list string :=
  match s with
  | EmptyString => [EmptyString]
  | String c s' =>
      if Ascii.eqb c sep then EmptyString :: split sep s'
      else match split sep s' with
           | h :: t => String c h :: t
           | [] => [String c EmptyString]
           end
  end.

(** [_.includes] on an array of strings. *)
Definition includes (l : list string) (x : string) : bool :=
  existsb (String.eqb x) l.

(** A filter is a string or [undefined]; the empty string is falsy. *)
Definition filteredTypes (filter : option string) : option (list string) :=
  match filter with
  | Some f => if String.eqb f "" then None else Some (split "," f)
  | None => None
  end.

Definition settingsFilter (settings : list Setting) (filter : option string)
  : list Setting :=
  List.filter
    (fun setting =>
       match filteredTypes filter with
       | Some types => includes types (s_type setting)
       | None => true
       end)
    settings.

(** The API format: [{settings: [...], meta: {filters: {type}}}], where
    [meta.filters] is only there when a truthy type was given. *)
Record Result : Type := mkResult {
  settings : list Setting;
  meta_filters_type : option string
}.

Definition settingsResult (settings : list Setting) (type : option string)
  : Result :=
  {| settings := settingsFilter settings type;
     meta_filters_type :=
       match type with
       | Some t => if String.eqb t "" then None else Some t
       | None => None
       end |}.

(** ** The world: cache, files and the calls made to the collaborators *)

(** The files the API touches, by identity: [routes.yaml] in the settings
    folder of the content path, its backup [routes-<stamp>.yaml] in the same
    folder, and any other file (an uploaded one). *)
Inductive Path : Type :=
| RoutesYaml
| RoutesBackup (stamp : string)
| OtherFile (name : string).

#[global] Instance Path_eq_dec : EqDecision Path.
Proof. solve_decision. Defined.

#[global] Instance Path_countable : Countable Path.
Proof.
  refine (inj_countable'
            (fun p => match p with
                      | RoutesYaml => inl tt
                      | RoutesBackup s => inr (inl s)
                      | OtherFile s => inr (inr s)
                      end)
            (fun x => match x with
                      | inl _ => RoutesYaml
                      | inr (inl s) => RoutesBackup s
                      | inr (inr s) => OtherFile s
                      end) _).
  intros [| |]; reflexivity.
Defined.

Inductive Action : Type := Browse | Read | Edit.

Inductive Event : Type :=
| CanThis (context : JsValue) (action : Action) (key : option string)
| CheckObject (entries : list Entry)
| SettingsEdit (entries : list Entry) (options : JsValue)
| HandlePermissions (docName method : string) (context : JsValue)
| FsCopy (src dest : Path)
| FsReadFile (file : Path)
| ResetGenerators
| SiteAppReload.

Record World : Type := mkWorld {
  settingsCache : list Setting;
  files : gmap Path string;
  log : list Event
}.

Definition add_log (ev : Event) (w : World) : World :=
  {| settingsCache := settingsCache w; files := files w;
     log := log w ++ [ev] |}.

Definition write_file (file : Path) (contents : string) (w : World) : World :=
  {| settingsCache := settingsCache w;
     files := <[file := contents]> (files w);
     log := log w |}.

(** How a call ends: with a value (returned, or the value its promise
    resolves with), with a rejected promise, or with an exception thrown
    before any promise was made. *)
Inductive Outcome (A : Type) : Type :=
| Resolved (a : A)
| Rejected (e : JsError)
| Thrown (e : JsError).
Arguments Resolved {A} a.
Arguments Rejected {A} e.
Arguments Thrown {A} e.

Definition Promise (A : Type) : Type := World -> Outcome A * World.

#[global] Instance Promise_ret : MRet Promise :=
  fun A a w => (Resolved a, w).

(** [m.then(f)]: a rejection skips [f]. *)
#[global] Instance Promise_bind : MBind Promise :=
  fun A B f m w =>
    match m w with
    | (Resolved a, w') => f a w'
    | (Rejected e, w') => (Rejected e, w')
    | (Thrown e, w') => (Thrown e, w')
    end.

Definition reject {A : Type} (e : JsError) : Promise A :=
  fun w => (Rejected e, w).

Definition throw {A : Type} (e : JsError) : Promise A :=
  fun w => (Thrown e, w).

(** [m.catch(h)] *)
Definition catch {A : Type} (m : Promise A) (h : JsError -> Promise A)
  : Promise A :=
  fun w =>
    match m w with
    | (Rejected e, w') => h e w'
    | r => r
    end.

(** [try { return m } catch (err) { return h(err) }] *)
Definition try_catch {A : Type} (m : Promise A) (h : JsError -> Promise A)
  : Promise A :=
  fun w =>
    match m w with
    | (Thrown e, w') => h e w'
    | r => r
    end.

(** A callback of [then] that throws rejects the promise [then] made. *)
Definition in_then {A : Type} (m : Promise A) : Promise A :=
  fun w =>
    match m w with
    | (Thrown e, w') => (Rejected e, w')
    | r => r
    end.

Definition emit (ev : Event) : Promise unit :=
  fun w => (Resolved tt, add_log ev w).

Definition getCache : Promise (list Setting) :=
  fun w => (Resolved (settingsCache w), w).

(** [fs.copy(src, dest)] of fs-extra on a file system that does its part:
    the destination is overwritten in one step, and the copy fails only when
    the source does not exist or is the destination.  The copy that can fail
    for other reasons, part way too, is [fs_copy_io] below. *)
Definition fs_copy (src dest : Path) : Promise unit :=
  fun w =>
    let w' := add_log (FsCopy src dest) w in
    match files w !! src with
    | None =>
        (Rejected (SystemError (Some "ENOENT") "no such file or directory"), w')
    | Some contents =>
        if decide (src = dest)
        then (Rejected (SystemError None
                "Source and destination must not be the same."), w')
        else (Resolved tt, write_file dest contents w')
    end.

(** What a copy that fails leaves of its destination: the file as it was, a
    part of the new contents, or no file at all. *)
Inductive Leftover : Type :=
| Untouched
| Partial (contents : string)
| Removed.

Definition remove_file (file : Path) (w : World) : World :=
  {| settingsCache := settingsCache w;
     files := delete file (files w);
     log := log w |}.

Definition leave (dest : Path) (l : Leftover) (w : World) : World :=
  match l with
  | Untouched => w
  | Partial contents => write_file dest contents w
  | Removed => remove_file dest w
  end.

(** ** Sample data *)

(** A cache, worlds and collaborators for the examples at the end of the
    file. *)
Definition sampleCache : list Setting :=
  [mkSetting "1" "title" "Ghost" "blog";
   mkSetting "2" "permalinks" "/:slug/" "blog";
   mkSetting "3" "active_theme" "casper" "theme";
   mkSetting "4" "db_hash" "abc" "core"].

Definition sampleWorld : World := mkWorld sampleCache ∅ [].

(** A cache in which the reserved keys are of type [core]. *)
Definition reservedWorld : World :=
  mkWorld [mkSetting "2" "permalinks" "/:slug/" "core";
           mkSetting "3" "active_theme" "casper" "core"] ∅ [].

(** A world with an artifact, and a file to upload that the site app cannot
    load. *)
Definition siteWorld : World :=
  mkWorld sampleCache
    (<[RoutesYaml := "routes"]> (<[OtherFile "upload" := "broken"]> ∅)) [].

Definition internalOptions : JsValue :=
  JObject [("context", JObject [("internal", JBool true)])].

Definition userOptions : JsValue :=
  JObject [("context", JObject [("user", JNumber 1)])].

(** A stand-in for [JSON.stringify], right on the values of the examples. *)
Definition sampleStringify (v : JsValue) : option string :=
  match v with
  | JUndefined => None
  | JNull => Some "null"
  | JBool true => Some "true"
  | JBool false => Some "false"
  | JNumber _ => Some "0"
  | JString s => Some s
  | JArray _ => Some "[]"
  | JObject _ => Some "{}"
  end.

Definition allowAll (_ : JsValue) (_ : Action) (_ : option string)
  : option JsError := None.

Definition allowTitleOnly (_ : JsValue) (_ : Action) (key : option string)
  : option JsError :=
  if bool_decide (key = Some "title") then None
  else Some (SystemError None "no permission").

Definition checkPass (entries : list Entry) : JsError + list Entry :=
  inr entries.

Definition editAll (entries : list Entry) (_ : JsValue)
  : JsError + list Setting :=
  inr (map (fun e => mkSetting "" (e_key e) (default "" (e_value e)) "blog")
         entries).

Definition grantAll (_ _ : string) (_ : JsValue) : option JsError := None.

Definition isBroken (contents : option string) : bool :=
  bool_decide (contents = Some "broken").

Definition reloadUnlessBroken (w : World) : option JsError :=
  if isBroken (files w !! RoutesYaml)
  then Some (SystemError None "invalid routes")
  else None.

(** A site app that cannot reload at all; what it throws tells the calls
    apart. *)
Definition reloadNever (w : World) : option JsError :=
  Some (SystemError None
          (if Nat.leb (length (log w)) 4 then "first reload"
           else "second reload")).

Definition noFault (_ : World) (_ : Path) : option JsError := None.

Definition accessFault (_ : World) (_ : Path) : option JsError :=
  Some (SystemError (Some "EACCES") "permission denied").

Definition upFault (_ : World) (_ : Path) : option JsError :=
  Some (GhostError InternalServerError None None None None).

Definition refuseAll (_ : JsValue) (_ : Action) (_ : option string)
  : option JsError := Some (SystemError None "no permission").

Definition denyAccess (_ _ : string) (_ : JsValue) : option JsError :=
  Some (GhostError NoPermissionError None None None None).

Definition reloadAlways (_ : World) : option JsError := None.

(** A world with an artifact and a file to upload that the site app loads. *)
Definition readyWorld : World :=
  mkWorld sampleCache
    (<[RoutesYaml := "routes"]> (<[OtherFile "upload" := "new routes"]> ∅)) [].

(** File systems: one on which no copy fails, one on which the copy from a
    backup fails before it writes, one on which the copy of an uploaded file
    fails part way. *)
Definition noCopyFault (_ : World) (_ _ : Path) : option (JsError * Leftover) :=
  None.

Definition restoreFault (_ : World) (src _ : Path)
  : option (JsError * Leftover) :=
  match src with
  | RoutesBackup _ => Some (SystemError (Some "EIO") "i/o error", Untouched)
  | _ => None
  end.

Definition replaceFault (_ : World) (src _ : Path)
  : option (JsError * Leftover) :=
  match src with
  | OtherFile _ =>
      Some (SystemError (Some "ENOSPC") "no space left on device",
            Partial "new r")
  | _ => None
  end.

(** A url service whose reset returns, and one whose reset throws. *)
Definition resetReturns (_ : World) : option JsError := None.

Definition resetThrows (_ : World) : option JsError :=
  Some (SystemError None "reset failed").

(** ** The API, over its collaborators *)

Section SettingsApi.

(** [JSON.stringify]: a string, or [undefined] (here [None]) for values
    that have no serialization, [undefined] itself among them. *)
Variable JSON_stringify : JsValue -> option string.

(** The permission engine, [canThis(context).<action>.setting(key)]:
    [None] when the promise it returns resolves, the reason when it
    rejects.  That promise never settles before the caller's current
    turn ends. *)
Variable canThis : JsValue -> Action -> option string -> option JsError.

(** [localUtils.checkObject(object, docName)], from the settings of the
    object to the settings of the checked data. *)
Variable checkObject : list Entry -> JsError + list Entry.

(** [models.Settings.edit(settings, options)], with [toJSON] applied to
    each model it returns. *)
Variable Settings_edit : list Entry -> JsValue -> JsError + list Setting.

(** [localUtils.handlePermissions(docName, method)(options)], from the
    context of the options: [None] when access is granted. *)
Variable handlePermissions : string -> string -> JsValue -> option JsError.

(** [siteApp.reload()], a synchronous call: it returns ([None]) or throws. *)
Variable siteApp_reload : World -> option JsError.

(** The failures of [fs.readFile] on a file that exists. *)
Variable readFile_fault : World -> Path -> option JsError.

(** [moment().format('YYYY-MM-DD-HH-mm-ss')] *)
Variable now : string.

Definition canThis_call (context : JsValue) (action : Action)
    (key : option string) : Promise unit :=
  emit (CanThis context action key) ;;
  match canThis context action key with
  | None => mret tt
  | Some e => reject e
  end.

Definition checkObject_call (entries : list Entry) : Promise (list Entry) :=
  emit (CheckObject entries) ;;
  match checkObject entries with
  | inr checkedData => mret checkedData
  | inl e => reject e
  end.

Definition Settings_edit_call (entries : list Entry) (options : JsValue)
  : Promise (list Setting) :=
  emit (SettingsEdit entries options) ;;
  match Settings_edit entries options with
  | inr models => mret models
  | inl e => reject e
  end.

Definition handlePermissions_call (docName method : string)
    (context : JsValue) : Promise unit :=
  emit (HandlePermissions docName method context) ;;
  match handlePermissions docName method context with
  | None => mret tt
  | Some e => reject e
  end.

Definition siteApp_reload_call : Promise unit :=
  fun w =>
    match siteApp_reload w with
    | None => (Resolved tt, add_log SiteAppReload w)
    | Some e => (Thrown e, add_log SiteAppReload w)
    end.

Definition fs_readFile (file : Path) : Promise string :=
  fun w =>
    let w' := add_log (FsReadFile file) w in
    match files w !! file with
    | None =>
        (Rejected (SystemError (Some "ENOENT") "no such file or directory"),
         w')
    | Some contents =>
        match readFile_fault w file with
        | Some e => (Rejected e, w')
        | None => (Resolved contents, w')
        end
    end.

(** *** canEditAllSettings *)

(** One of the promises of [checks], as [Promise.all] finds it: already
    rejected (made by [Promise.reject]), or pending on the permission
    engine, to resolve ([None]) or to reject later. *)
Inductive SettingCheck : Type :=
| AlreadyRejected (e : JsError)
| Pending (settles : option JsError).

Definition checkSettingPermissions (options : JsValue) (setting : Setting)
  : Promise SettingCheck :=
  if String.eqb (s_type setting) "core"
     && negb (isInternal (js_get options "context"))
  then mret (AlreadyRejected accessCoreSettingFromExtReq)
  else
    emit (CanThis (js_get options "context") Edit (Some (s_key setting))) ;;
    mret (Pending
            (match canThis (js_get options "context") Edit
                     (Some (s_key setting)) with
             | Some _ => Some noPermissionToEditSettings
             | None => None
             end)).

Definition check (options : JsValue) (settingInfo : Entry) : Promise SettingCheck :=
  cache ← getCache;
  match settingsCache_get cache (e_key settingInfo) with
  | None => mret (AlreadyRejected (problemFindingSetting (e_key settingInfo)))
  | Some setting =>
      if String.eqb (s_key setting) "active_theme"
      then mret (AlreadyRejected activeThemeSetViaAPI)
      else checkSettingPermissions options setting
  end.

Fixpoint firstRejected (checks : list SettingCheck) : option JsError :=
  match checks with
  | [] => None
  | AlreadyRejected e :: _ => Some e
  | Pending _ :: rest => firstRejected rest
  end.

Fixpoint firstRefused (checks : list SettingCheck) : option JsError :=
  match checks with
  | [] => None
  | Pending (Some e) :: _ => Some e
  | _ :: rest => firstRefused rest
  end.

(** [Promise.all(checks)]: rejected with the reason of the first promise
    of the array that is rejected already; otherwise with the reason of
    the pending promise that rejects first (they all reject with the same
    reason here, the first of the array is taken); otherwise resolved. *)
Definition Promise_all (checks : list SettingCheck) : Promise unit :=
  match firstRejected checks with
  | Some e => reject e
  | None =>
      match firstRefused checks with
      | Some e => reject e
      | None => mret tt
      end
  end.

Definition canEditAllSettings (settingsInfo : list Entry) (options : JsValue)
  : Promise unit :=
  checks ← mapM (check options) settingsInfo;
  Promise_all checks.

(** *** browse *)

Record BrowseOptions : Type := mkBrowse {
  b_type : option string;
  b_context : JsValue
}.

(** [browse] resolves with an array when there is no context, with a
    result in the API format otherwise. *)
Inductive Browsed : Type :=
| SettingsArray (l : list Setting)
| SettingsResult (r : Result).

Definition browse (options : option BrowseOptions) : Promise Browsed :=
  let options := default (mkBrowse None JUndefined) options in
  cache ← getCache;
  let result := settingsResult (settingsCache_getAll cache) (b_type options) in
  if negb (truthy (b_context options))
  then mret (SettingsArray
               (List.filter (fun setting => String.eqb (s_type setting) "blog")
                  (settings result)))
  else
    canThis_call (b_context options) Browse None ;;
    if negb (truthy (js_get (b_context options) "internal"))
    then mret (SettingsResult
                 {| settings :=
                      List.filter
                        (fun setting =>
                           negb (String.eqb (s_type setting) "core")
                           && negb (String.eqb (s_key setting) "permalinks"))
                        (settings result);
                    meta_filters_type := meta_filters_type result |})
    else mret (SettingsResult result).

(** *** read *)

(** [read] takes a key, or options with a key and maybe a context. *)
Inductive ReadOptions : Type :=
| ReadKey (key : string)
| ReadObject (key : string) (context : JsValue).

(** [options.key] and [options.context], once a key alone has been made
    [{key: options}]. *)
Definition ro_key (options : ReadOptions) : string :=
  match options with ReadKey key | ReadObject key _ => key end.

Definition ro_context (options : ReadOptions) : JsValue :=
  match options with ReadKey _ => JUndefined | ReadObject _ context => context end.

Definition read (options : ReadOptions) : Promise Result :=
  let key := ro_key options in
  let context := ro_context options in
  cache ← getCache;
  match settingsCache_get cache key with
  | None => reject (problemFindingSetting key)
  | Some setting =>
      if String.eqb (s_type setting) "core" && negb (isInternal context)
      then reject accessCoreSettingFromExtReq
      else if String.eqb (s_key setting) "permalinks"
      then reject resourceNotFound
      else if String.eqb (s_type setting) "blog"
      then mret (settingsResult [setting] None)
      else
        catch (canThis_call context Read (Some key))
              (fun _ => reject noPermissionToReadSettings) ;;
        mret (settingsResult [setting] None)
  end.

(** *** edit *)

(** [edit] takes a batch [{settings: [...]}], or a key with the value in
    the place of the options. *)
Inductive EditObject : Type :=
| EditKey (key : string)
| EditSettings (settings : list RawEntry).

(** The "clean data" loop, on one entry. *)
Definition clean (setting : RawEntry) : Entry :=
  {| e_key := r_key setting;
     e_value := match r_value setting with
                | JString value => Some value
                | value => JSON_stringify value
                end |}.

Definition isTypeEntry (setting : Entry) : bool :=
  String.eqb (e_key setting) "type".

(** The value of the first entry with key [type], if there is one. *)
Definition typeOf (entries : list Entry) : option string :=
  match List.find isTypeEntry entries with
  | Some type => e_value type
  | None => None
  end.

(** [_.reject(object.settings, ...)] *)
Definition withoutType (entries : list Entry) : list Entry :=
  List.filter (fun setting => negb (isTypeEntry setting)) entries.

Fixpoint upsert (s : Setting) (l : list Setting) : list Setting :=
  match l with
  | [] => [s]
  | x :: l' =>
      if String.eqb (s_key x) (s_key s) then s :: l' else x :: upsert s l'
  end.

(** [_.keyBy(..., 'key')], as the values of the keyed object in their
    enumeration order: a later setting takes the place of an earlier one
    with its key.  (Keys that read as array indices, which an object
    enumerates first, are no setting keys.) *)
Definition keyBy (models : list Setting) : list Setting :=
  fold_left (fun keyed s => upsert s keyed) models [].

Definition rawSettings (object : EditObject) (options : JsValue)
  : list RawEntry :=
  match object with
  | EditKey key => [mkRaw key options]
  | EditSettings settings => settings
  end.

(** [options || {}] *)
Definition orEmpty (options : JsValue) : JsValue :=
  if truthy options then options else JObject [].

(** The entries once cleaned, the [type] entries still among them. *)
Definition cleanData (object : EditObject) (options : JsValue) : list Entry :=
  map clean (rawSettings object options).

Definition edit (object : EditObject) (options : JsValue) : Promise Result :=
  let options := orEmpty options in
  let type := typeOf (cleanData object options) in
  let settings := withoutType (cleanData object options) in
  match settings with
  | [] => throw (TypeError "Cannot read property 'key' of undefined")
  | first :: _ =>
      if String.eqb (e_key first) "permalinks"
      then reject resourceNotFound
      else
        canEditAllSettings settings options ;;
        checkedData ← checkObject_call settings;
        settingsModelsArray ← Settings_edit_call checkedData options;
        mret (settingsResult (keyBy settingsModelsArray) type)
  end.

(** *** upload and download *)

Record FileOptions : Type := mkFileOptions {
  o_path : Path;
  o_context : JsValue
}.

(** [upload] where the copies fail only for want of a source and the reset
    of the url generators returns; [upload_io] below is [upload] with the
    other failures of these calls. *)
Definition upload (options : FileOptions) : Promise unit :=
  let backupRoutesPath := RoutesBackup now in
  handlePermissions_call "settings" "edit" (o_context options) ;;
  fs_copy RoutesYaml backupRoutesPath ;;
  fs_copy (o_path options) RoutesYaml ;;
  emit ResetGenerators ;;
  try_catch siteApp_reload_call
    (fun err =>
       fs_copy backupRoutesPath RoutesYaml ;;
       in_then siteApp_reload_call ;;
       reject err).

(** [download] resolves with the text of the file or with [[]]. *)
Inductive Downloaded : Type :=
| FileText (contents : string)
| EmptyArray.

Definition download (options : FileOptions) : Promise Downloaded :=
  catch
    (handlePermissions_call "settings" "browse" (o_context options) ;;
     contents ← fs_readFile RoutesYaml;
     mret (FileText contents))
    (fun err =>
       if bool_decide (err_code err = Some "ENOENT")
       then mret EmptyArray
       else if isIgnitionError err
       then reject err
       else reject (GhostError NotFoundError None None None (Some err))).

(** *** upload, with the failures of the file system and of the url service *)

(** The failures of [fs.copy] from a file that exists to another file: the
    error, and what the failed copy leaves of the destination. *)
Variable copy_fault : World -> Path -> Path -> option (JsError * Leftover).

(** [urlService.resetGenerators({releaseResourcesOnly: true})], a
    synchronous call: it returns ([None]) or throws. *)
Variable urlService_resetGenerators : World -> option JsError.

Definition fs_copy_io (src dest : Path) : Promise unit :=
  fun w =>
    let w' := add_log (FsCopy src dest) w in
    match files w !! src with
    | None =>
        (Rejected (SystemError (Some "ENOENT") "no such file or directory"), w')
    | Some contents =>
        if decide (src = dest)
        then (Rejected (SystemError None
                "Source and destination must not be the same."), w')
        else match copy_fault w src dest with
             | Some (e, leftover) => (Rejected e, leave dest leftover w')
             | None => (Resolved tt, write_file dest contents w')
             end
    end.

Definition urlService_resetGenerators_call : Promise unit :=
  fun w =>
    match urlService_resetGenerators w with
    | None => (Resolved tt, add_log ResetGenerators w)
    | Some e => (Thrown e, add_log ResetGenerators w)
    end.

(** [upload] as the code has it.  The reset of the url generators is called
    in a callback of [then], outside the [try]: what it throws rejects the
    upload.  So does a copy that fails, the one of the [catch] block
    included: nothing is done about either. *)
Definition upload_io (options : FileOptions) : Promise unit :=
  let backupRoutesPath := RoutesBackup now in
  handlePermissions_call "settings" "edit" (o_context options) ;;
  fs_copy_io RoutesYaml backupRoutesPath ;;
  fs_copy_io (o_path options) RoutesYaml ;;
  in_then urlService_resetGenerators_call ;;
  try_catch siteApp_reload_call
    (fun err =>
       fs_copy_io backupRoutesPath RoutesYaml ;;
       in_then siteApp_reload_call ;;
       reject err).

(** ** Reading a run *)

(** The definitions below are used to state what the API does; the code
    has no counterpart of them. *)

Definition add_logs (evs : list Event) (w : World) : World :=
  {| settingsCache := settingsCache w; files := files w;
     log := log w ++ evs |}.

(** The promise [check] leaves for an entry, read off the cache. *)
Definition checkOf (cache : list Setting) (options : JsValue)
    (settingInfo : Entry) : SettingCheck :=
  match settingsCache_get cache (e_key settingInfo) with
  | None => AlreadyRejected (problemFindingSetting (e_key settingInfo))
  | Some setting =>
      if String.eqb (s_key setting) "active_theme"
      then AlreadyRejected activeThemeSetViaAPI
      else if String.eqb (s_type setting) "core"
              && negb (isInternal (js_get options "context"))
      then AlreadyRejected accessCoreSettingFromExtReq
      else Pending
             (match canThis (js_get options "context") Edit
                      (Some (s_key setting)) with
              | Some _ => Some noPermissionToEditSettings
              | None => None
              end)
  end.

(** The calls [check] makes to the permission engine for an entry. *)
Definition consulted (cache : list Setting) (options : JsValue)
    (settingInfo : Entry) : list Event :=
  match checkOf cache options settingInfo with
  | Pending _ =>
      [CanThis (js_get options "context") Edit (Some (e_key settingInfo))]
  | AlreadyRejected _ => []
  end.

(** The batches handed to [models.Settings.edit], as the log has them. *)
Definition persisted (l : list Event) : list (list Entry) :=
  flat_map (fun ev => match ev with
                      | SettingsEdit entries _ => [entries]
                      | _ => []
                      end) l.

(** The keys the permission engine was asked about, as the log has them. *)
Definition askedKeys (l : list Event) : list string :=
  flat_map (fun ev => match ev with
                      | CanThis _ _ (Some key) => [key]
                      | _ => []
                      end) l.

(** A check that rejects, at once or later. *)
Definition fails (c : SettingCheck) : bool :=
  match c with
  | AlreadyRejected _ | Pending (Some _) => true
  | Pending None => false
  end.

(** A check that is still pending when [Promise.all] looks at it. *)
Definition pending (c : SettingCheck) : bool :=
  match c with Pending _ => true | AlreadyRejected _ => false end.

(** What [Promise.all] settles with: [None] when it resolves. *)
Definition verdict (checks : list SettingCheck) : option JsError :=
  match firstRejected checks with
  | Some e => Some e
  | None => firstRefused checks
  end.

(** The world in which the site app is reloaded for the first time, when
    the upload gets that far: the backup is made and the uploaded file is in
    the place of [routes.yaml]. *)
Definition staged (options : FileOptions) (A B : string) (w : World) : World :=
  add_log ResetGenerators
    (write_file RoutesYaml B
       (add_log (FsCopy (o_path options) RoutesYaml)
          (write_file (RoutesBackup now) A
             (add_log (FsCopy RoutesYaml (RoutesBackup now))
                (add_log (HandlePermissions "settings" "edit"
                            (o_context options)) w))))).

(** The world in which it is reloaded for the second time. *)
Definition restored (options : FileOptions) (A B : string) (w : World)
  : World :=
  write_file RoutesYaml A
    (add_log (FsCopy (RoutesBackup now) RoutesYaml)
       (add_log SiteAppReload (staged options A B w))).

(** [s] has the character [c]. *)
Fixpoint contains (c : ascii) (s : string) : bool :=
  match s with
  | EmptyString => false
  | String c' s' => Ascii.eqb c' c || contains c s'
  end.

(** [Array.prototype.join] with a one-character separator, on an array
    that is not empty. *)
Fixpoint join (sep : ascii) (l : list string) : string :=
  match l with
  | [] => EmptyString
  | [x] => x
  | x :: rest => x +:+ String sep (join sep rest)
  end.

(** What an entry needs for its check to pass: a cached setting that is not
    [active_theme], that is not of type [core] unless the context is
    internal, and that the permission engine lets the context edit. *)
Definition authorized (cache : list Setting) (options : JsValue)
    (settingInfo : Entry) : Prop :=
  exists setting,
    settingsCache_get cache (e_key settingInfo) = Some setting
    /\ e_key settingInfo <> "active_theme"
    /\ (s_type setting = "core" ->
        isInternal (js_get options "context") = true)
    /\ canThis (js_get options "context") Edit (Some (e_key settingInfo))
       = None.

(** The reloads of the site app, as the log has them. *)
Definition reloads (l : list Event) : nat :=
  length (List.filter (fun ev => match ev with
                                 | SiteAppReload => true
                                 | _ => false
                                 end) l).

(** ** Properties *)

(** Unfolds the plumbing of promises. *)
Ltac promise_steps :=
  unfold mbind, Promise_bind, mret, Promise_ret, emit, reject, getCache.

(** *** The log *)

Lemma add_logs_nil w : add_logs [] w = w.
Proof. destruct w; unfold add_logs; simpl. by rewrite app_nil_r. Qed.

Lemma add_log_logs ev w : add_log ev w = add_logs [ev] w.
Proof. reflexivity. Qed.

Lemma add_logs_app evs1 evs2 w :
  add_logs evs2 (add_logs evs1 w) = add_logs (evs1 ++ evs2) w.
Proof. unfold add_logs; simpl. by rewrite app_assoc. Qed.

(** *** The checks of canEditAllSettings, one entry at a time *)

Lemma settingsCache_get_key cache key setting :
  settingsCache_get cache key = Some setting -> s_key setting = key.
Proof.
  unfold settingsCache_get. intros H.
  apply find_some in H as [_ H]. by apply String.eqb_eq.
Qed.

Lemma check_run options settingInfo w :
  check options settingInfo w =
  (Resolved (checkOf (settingsCache w) options settingInfo),
   add_logs (consulted (settingsCache w) options settingInfo) w).
Proof.
  unfold check, consulted, checkOf, checkSettingPermissions. promise_steps.
  destruct (settingsCache_get (settingsCache w) (e_key settingInfo))
    as [setting|] eqn:Hget; simpl.
  - apply settingsCache_get_key in Hget as Hkey.
    destruct (String.eqb (s_key setting) "active_theme");
      [by rewrite add_logs_nil|].
    destruct (String.eqb (s_type setting) "core"
              && negb (isInternal (js_get options "context")));
      [by rewrite add_logs_nil|].
    by rewrite Hkey, add_log_logs.
  - by rewrite add_logs_nil.
Qed.

Lemma checks_run options settingsInfo w :
  mapM (check options) settingsInfo w =
  (Resolved (map (checkOf (settingsCache w) options) settingsInfo),
   add_logs (flat_map (consulted (settingsCache w) options) settingsInfo) w).
Proof.
  revert w. induction settingsInfo as [|settingInfo rest IH]; intros w.
  - simpl. by rewrite add_logs_nil.
  - simpl. unfold mbind at 1, Promise_bind. rewrite check_run.
    unfold mbind at 1, Promise_bind. rewrite IH. simpl.
    by rewrite add_logs_app.
Qed.

Lemma canEditAllSettings_run settingsInfo options w :
  canEditAllSettings settingsInfo options w =
  (match verdict (map (checkOf (settingsCache w) options) settingsInfo) with
   | Some e => Rejected e
   | None => Resolved tt
   end,
   add_logs (flat_map (consulted (settingsCache w) options) settingsInfo) w).
Proof.
  unfold canEditAllSettings, mbind, Promise_bind. rewrite checks_run.
  unfold Promise_all, verdict.
  destruct (firstRejected _); [reflexivity|].
  destruct (firstRefused _); reflexivity.
Qed.

(** *** edit, step by step *)

Lemma edit_run object options w :
  edit object options w =
  let options' := orEmpty options in
  let settings := withoutType (cleanData object options') in
  match settings with
  | [] => (Thrown (TypeError "Cannot read property 'key' of undefined"), w)
  | first :: _ =>
      if String.eqb (e_key first) "permalinks"
      then (Rejected resourceNotFound, w)
      else
        let w1 :=
          add_logs (flat_map (consulted (settingsCache w) options') settings) w in
        match verdict (map (checkOf (settingsCache w) options') settings) with
        | Some e => (Rejected e, w1)
        | None =>
            let w2 := add_log (CheckObject settings) w1 in
            match checkObject settings with
            | inl e => (Rejected e, w2)
            | inr checkedData =>
                let w3 := add_log (SettingsEdit checkedData options') w2 in
                match Settings_edit checkedData options' with
                | inl e => (Rejected e, w3)
                | inr models =>
                    (Resolved (settingsResult (keyBy models)
                                 (typeOf (cleanData object options'))), w3)
                end
            end
        end
  end.
Proof.
  unfold edit. cbv zeta.
  destruct (withoutType (cleanData object (orEmpty options)))
    as [|first rest] eqn:Hsettings; [reflexivity|].
  destruct (String.eqb (e_key first) "permalinks"); [reflexivity|].
  unfold mbind at 1, Promise_bind. rewrite canEditAllSettings_run.
  destruct (verdict _); [reflexivity|].
  unfold checkObject_call, Settings_edit_call. promise_steps.
  destruct (checkObject (first :: rest)) as [e|checkedData]; simpl;
    [reflexivity|].
  destruct (Settings_edit checkedData (orEmpty options)); reflexivity.
Qed.

Lemma persisted_app l1 l2 : persisted (l1 ++ l2) = persisted l1 ++ persisted l2.
Proof. unfold persisted. apply flat_map_app. Qed.

Lemma persisted_consulted cache options settingsInfo :
  persisted (flat_map (consulted cache options) settingsInfo) = [].
Proof.
  induction settingsInfo as [|x rest IH]; [reflexivity|].
  simpl. rewrite persisted_app, IH. unfold consulted.
  destruct (checkOf cache options x); reflexivity.
Qed.

Lemma askedKeys_app l1 l2 : askedKeys (l1 ++ l2) = askedKeys l1 ++ askedKeys l2.
Proof. unfold askedKeys. apply flat_map_app. Qed.

Lemma firstRejected_pending checks1 e checks2 :
  forallb pending checks1 = true ->
  firstRejected (checks1 ++ AlreadyRejected e :: checks2) = Some e.
Proof.
  induction checks1 as [|c rest IH]; simpl; [reflexivity|].
  destruct c; simpl; [discriminate|]. exact IH.
Qed.

Lemma verdict_fails checks c :
  In c checks -> fails c = true -> exists e, verdict checks = Some e.
Proof.
  intros Hin Hfails. unfold verdict.
  destruct (firstRejected checks) as [e|] eqn:Hrej; [by exists e|].
  induction checks as [|c' rest IH]; [destruct Hin|].
  destruct c' as [e'|settles]; [discriminate|]. simpl in *.
  destruct Hin as [<-|Hin].
  - destruct settles as [e'|]; [by exists e'|discriminate].
  - destruct settles as [e'|]; [by exists e'|]. by apply IH.
Qed.

(** An edit that is rejected by the checks hands nothing to the model. *)
Lemma edit_rejected_by_checks object options w e :
  verdict (map (checkOf (settingsCache w) (orEmpty options))
             (withoutType (cleanData object (orEmpty options)))) = Some e ->
  (exists e', fst (edit object options w) = Rejected e')
  /\ persisted (log (snd (edit object options w))) = persisted (log w).
Proof.
  intros Hverdict. rewrite edit_run. cbv zeta.
  destruct (withoutType (cleanData object (orEmpty options)))
    as [|first rest] eqn:Hsettings; [discriminate|].
  destruct (String.eqb (e_key first) "permalinks").
  - split; [by eexists|reflexivity].
  - rewrite Hverdict. split; [by eexists|].
    cbn [snd log add_logs].
    by rewrite persisted_app, persisted_consulted, app_nil_r.
Qed.

Lemma checkOf_fst options settingInfo w :
  fst (check options settingInfo w) =
  Resolved (checkOf (settingsCache w) options settingInfo).
Proof. by rewrite check_run. Qed.

Lemma checkOf_key cache options x y :
  e_key x = e_key y -> checkOf cache options x = checkOf cache options y.
Proof. unfold checkOf. by intros ->. Qed.

Lemma checkOf_active_theme cache options settingInfo :
  e_key settingInfo = "active_theme" ->
  fails (checkOf cache options settingInfo) = true.
Proof.
  intros Hkey. unfold checkOf. rewrite Hkey.
  destruct (settingsCache_get cache "active_theme") as [setting|] eqn:Hget;
    [|reflexivity].
  apply settingsCache_get_key in Hget. by rewrite Hget.
Qed.

Lemma checkOf_core cache options settingInfo setting :
  settingsCache_get cache (e_key settingInfo) = Some setting ->
  s_type setting = "core" ->
  isInternal (js_get options "context") = false ->
  e_key settingInfo <> "active_theme" ->
  checkOf cache options settingInfo =
  AlreadyRejected accessCoreSettingFromExtReq.
Proof.
  intros Hget Htype Hctx Hkey. unfold checkOf. rewrite Hget.
  apply settingsCache_get_key in Hget. rewrite Hget.
  destruct (String.eqb_spec (e_key settingInfo) "active_theme"); [done|].
  by rewrite Htype, Hctx.
Qed.

Lemma pending_checks options (pre : list Entry) w :
  Forall (fun x => exists settles,
            fst (check options x w) = Resolved (Pending settles)) pre ->
  forallb pending (map (checkOf (settingsCache w) options) pre) = true.
Proof.
  induction 1 as [|x rest [settles Hx] _ IH]; [reflexivity|].
  simpl. rewrite checkOf_fst in Hx. injection Hx as ->. exact IH.
Qed.

Lemma askedKeys_consulted cache options settingsInfo key :
  In key (askedKeys (flat_map (consulted cache options) settingsInfo)) ->
  exists x, In x settingsInfo /\ e_key x = key
            /\ pending (checkOf cache options x) = true.
Proof.
  induction settingsInfo as [|x rest IH]; simpl; [done|].
  rewrite askedKeys_app, in_app_iff. intros [Hx|Hrest].
  - exists x. unfold consulted in Hx.
    destruct (checkOf cache options x) eqn:Hc; simpl in Hx; [done|].
    destruct Hx as [<-|[]]. auto.
  - destruct (IH Hrest) as (y & Hy & Hkey & Hp). exists y. auto.
Qed.

Lemma withoutType_clean (raw : list RawEntry) :
  withoutType (map clean raw) =
  map clean (List.filter (fun r => negb (String.eqb (r_key r) "type")) raw).
Proof.
  induction raw as [|r rest IH]; [reflexivity|].
  simpl. unfold isTypeEntry at 1. simpl.
  destruct (String.eqb (r_key r) "type"); simpl; by rewrite IH.
Qed.

Lemma withoutType_all_type (raw : list RawEntry) :
  Forall (fun r => r_key r = "type") raw -> withoutType (map clean raw) = [].
Proof.
  induction 1 as [|r rest Hr _ IH]; [reflexivity|].
  simpl. unfold isTypeEntry at 1. simpl. by rewrite Hr.
Qed.

Lemma withoutType_keys entries :
  Forall (fun setting => e_key setting <> "type") (withoutType entries).
Proof.
  apply List.Forall_forall. intros x Hx.
  apply filter_In in Hx as [_ Hx]. unfold isTypeEntry in Hx.
  by destruct (String.eqb_spec (e_key x) "type").
Qed.

Lemma withoutType_idem (raw : list RawEntry) :
  withoutType
    (map clean (List.filter (fun r => negb (String.eqb (r_key r) "type")) raw)) =
  withoutType (map clean raw).
Proof.
  rewrite <- withoutType_clean. unfold withoutType.
  induction (map clean raw) as [|x rest IH]; [reflexivity|].
  simpl. destruct (isTypeEntry x) eqn:Hx; simpl; [exact IH|].
  by rewrite Hx, IH.
Qed.

Lemma typeOf_withoutType (raw : list RawEntry) :
  typeOf
    (map clean (List.filter (fun r => negb (String.eqb (r_key r) "type")) raw)) =
  None.
Proof.
  rewrite <- withoutType_clean. unfold typeOf, withoutType.
  induction (map clean raw) as [|x rest IH]; [reflexivity|].
  simpl. destruct (isTypeEntry x) eqn:Hx; simpl; [exact IH|].
  by rewrite Hx.
Qed.

(** The outcome of an edit whose first check to be rejected at once is the
    one of [settingInfo]. *)
Lemma edit_first_rejected object options w pre settingInfo post err :
  withoutType (cleanData object (orEmpty options)) = pre ++ settingInfo :: post ->
  e_key <$> head (withoutType (cleanData object (orEmpty options)))
    <> Some "permalinks" ->
  Forall (fun x => exists settles,
            fst (check (orEmpty options) x w) = Resolved (Pending settles)) pre ->
  checkOf (settingsCache w) (orEmpty options) settingInfo = AlreadyRejected err ->
  edit object options w =
  (Rejected err,
   add_logs (flat_map (consulted (settingsCache w) (orEmpty options))
               (withoutType (cleanData object (orEmpty options)))) w).
Proof.
  intros Hsplit Hhead Hpre Hcheck. rewrite edit_run. cbv zeta.
  assert (Hverdict :
    verdict (map (checkOf (settingsCache w) (orEmpty options))
               (withoutType (cleanData object (orEmpty options)))) = Some err).
  { rewrite Hsplit, map_app. simpl. rewrite Hcheck. unfold verdict.
    by rewrite firstRejected_pending; [|apply pending_checks]. }
  destruct (withoutType (cleanData object (orEmpty options)))
    as [|first rest] eqn:Hsettings.
  - by destruct pre.
  - simpl in Hhead.
    destruct (String.eqb_spec (e_key first) "permalinks") as [Heq|_];
      [by rewrite Heq in Hhead|].
    by rewrite Hverdict.
Qed.

(** *** The claims about read, edit and browse *)

(** C1 (amended).  For every setting of type [core] and every context that
    is not internal (an absent one included): [read] is rejected with the
    permission error [accessCoreSettingFromExtReq] and the world is left as
    it was, so the permission engine is not asked; the permission check that
    [edit] runs on the setting is rejected at once with the same error,
    again without asking the engine; and [edit] of a batch is rejected with
    that error when the entry of the setting is the first of the batch (the
    [type] entries aside) whose check is rejected at once, the batch does
    not start with [permalinks] and the key is not [active_theme]; then
    nothing is handed to the model and the engine is not asked about that
    key, whatever it would answer. *)
Theorem core_setting_needs_internal_context (w : World) :
  (forall options setting,
     settingsCache_get (settingsCache w) (ro_key options) = Some setting ->
     s_type setting = "core" ->
     isInternal (ro_context options) = false ->
     read options w = (Rejected accessCoreSettingFromExtReq, w))
  /\
  (forall options setting,
     s_type setting = "core" ->
     isInternal (js_get options "context") = false ->
     checkSettingPermissions options setting w
     = (Resolved (AlreadyRejected accessCoreSettingFromExtReq), w))
  /\
  (forall object options pre settingInfo post setting,
     withoutType (cleanData object (orEmpty options))
       = pre ++ settingInfo :: post ->
     settingsCache_get (settingsCache w) (e_key settingInfo) = Some setting ->
     s_type setting = "core" ->
     isInternal (js_get (orEmpty options) "context") = false ->
     e_key settingInfo <> "active_theme" ->
     e_key <$> head (withoutType (cleanData object (orEmpty options)))
       <> Some "permalinks" ->
     Forall (fun x => exists settles,
               fst (check (orEmpty options) x w) = Resolved (Pending settles))
       pre ->
     fst (edit object options w) = Rejected accessCoreSettingFromExtReq
     /\ exists evs,
          log (snd (edit object options w)) = log w ++ evs
          /\ ~ In (e_key settingInfo) (askedKeys evs)
          /\ persisted evs = []).
Proof.
  split; [|split].
  - intros options setting Hget Htype Hctx.
    unfold read. promise_steps. cbv zeta.
    by rewrite Hget, Htype, Hctx.
  - intros options setting Htype Hctx. unfold checkSettingPermissions.
    by rewrite Htype, Hctx.
  - intros object options pre settingInfo post setting
      Hsplit Hget Htype Hctx Hkey Hhead Hpre.
    pose proof (checkOf_core _ _ _ _ Hget Htype Hctx Hkey) as Hcheck.
    rewrite (edit_first_rejected _ _ _ _ _ _ _ Hsplit Hhead Hpre Hcheck).
    split; [reflexivity|]. eexists. split; [reflexivity|]. split.
    + intros Hasked. apply askedKeys_consulted in Hasked as (x & _ & Hx & Hp).
      rewrite (checkOf_key _ _ _ _ Hx), Hcheck in Hp. discriminate.
    + apply persisted_consulted.
Qed.

(** C4 (amended).  [read] of the key [permalinks] is rejected with a
    not-found error and leaves the world as it was, for every context,
    internal ones included, unless the cached [permalinks] is of type [core]
    and the context is not internal; an [edit] whose batch, the [type]
    entries aside, starts with the key [permalinks] is rejected with the
    not-found error [resourceNotFound] and leaves the world as it was:
    nobody is asked and nothing is handed to the model. *)
Theorem permalinks_hidden (w : World) :
  (forall options,
     ro_key options = "permalinks" ->
     (forall setting,
        settingsCache_get (settingsCache w) "permalinks" = Some setting ->
        s_type setting = "core" ->
        isInternal (ro_context options) = true) ->
     exists e, read options w = (Rejected e, w)
               /\ errorTypeOf e = Some NotFoundError)
  /\
  (forall object options first rest,
     withoutType (cleanData object (orEmpty options)) = first :: rest ->
     e_key first = "permalinks" ->
     edit object options w = (Rejected resourceNotFound, w)).
Proof.
  split.
  - intros options Hkey Hcore.
    unfold read. promise_steps. cbv zeta. rewrite Hkey.
    destruct (settingsCache_get (settingsCache w) "permalinks")
      as [setting|] eqn:Hget.
    + apply settingsCache_get_key in Hget as Hskey. rewrite Hskey. simpl.
      destruct (String.eqb_spec (s_type setting) "core") as [Htype|_].
      * rewrite (Hcore setting eq_refl Htype). simpl. by eexists.
      * simpl. by eexists.
    + by eexists.
  - intros object options first rest Hsettings Hkey.
    rewrite edit_run. cbv zeta. rewrite Hsettings, Hkey. reflexivity.
Qed.

(** C6.  If the check of one entry of the batch fails (unknown key,
    [active_theme], a core setting from outside, or a refusal of the
    permission engine), the whole edit is rejected and nothing is handed to
    the model. *)
Theorem edit_all_or_nothing object options w settingInfo c :
  In settingInfo (withoutType (cleanData object (orEmpty options))) ->
  fst (check (orEmpty options) settingInfo w) = Resolved c ->
  fails c = true ->
  (exists e, fst (edit object options w) = Rejected e)
  /\ persisted (log (snd (edit object options w))) = persisted (log w).
Proof.
  intros Hin Hcheck Hfails. rewrite checkOf_fst in Hcheck.
  injection Hcheck as <-.
  destruct (verdict_fails
              (map (checkOf (settingsCache w) (orEmpty options))
                 (withoutType (cleanData object (orEmpty options))))
              (checkOf (settingsCache w) (orEmpty options) settingInfo))
    as [e He]; [by apply in_map|exact Hfails|].
  by apply (edit_rejected_by_checks _ _ _ e).
Qed.

(** C7 (amended).  [browse] called with no context resolves, without asking
    anybody, with an array of settings that are all of type [blog]; the
    [permalinks] entry aside, these are exactly the cached settings of type
    [blog] that pass the type filter of the options, in the order of the
    cache, hence all the cached settings of type [blog] when no filter is
    given. *)
Theorem browse_without_context (options : option BrowseOptions) (w : World) :
  truthy (b_context (default (mkBrowse None JUndefined) options)) = false ->
  exists l,
    browse options w = (Resolved (SettingsArray l), w)
    /\ Forall (fun setting => s_type setting = "blog") l
    /\ List.filter (fun setting => negb (String.eqb (s_key setting) "permalinks")) l
       = List.filter
           (fun setting => negb (String.eqb (s_key setting) "permalinks"))
           (List.filter (fun setting => String.eqb (s_type setting) "blog")
              (settingsFilter (settingsCache w)
                 (b_type (default (mkBrowse None JUndefined) options))))
    /\ (b_type (default (mkBrowse None JUndefined) options) = None ->
        List.filter
          (fun setting => negb (String.eqb (s_key setting) "permalinks")) l
        = List.filter
            (fun setting => negb (String.eqb (s_key setting) "permalinks"))
            (List.filter (fun setting => String.eqb (s_type setting) "blog")
               (settingsCache w))).
Proof.
  intros Hctx. eexists. split; [|split; [|split]].
  - unfold browse. promise_steps. cbv zeta.
    rewrite Hctx. reflexivity.
  - apply List.Forall_forall. intros setting Hin.
    apply filter_In in Hin as [_ Hin]. by apply String.eqb_eq.
  - reflexivity.
  - intros ->. simpl. unfold settingsFilter, settingsCache_getAll. simpl.
    f_equal. f_equal. induction (settingsCache w) as [|x rest IH]; simpl;
      [reflexivity|by rewrite IH].
Qed.

(** C10.  An [edit] whose batch is empty once the [type] entries are
    dropped (no entry at all, or [type] entries only) throws a [TypeError]
    when it reads the key of the first entry: no promise is made, nobody is
    asked and none of the errors of the API is the outcome. *)
Theorem edit_of_nothing_throws object options w :
  Forall (fun r => r_key r = "type") (rawSettings object (orEmpty options)) ->
  edit object options w =
  (Thrown (TypeError "Cannot read property 'key' of undefined"), w).
Proof.
  intros Hraw. rewrite edit_run. cbv zeta. unfold cleanData.
  by rewrite (withoutType_all_type _ Hraw).
Qed.

(** *** upload and download, step by step *)

Lemma fs_copy_run src dest contents w :
  files w !! src = Some contents ->
  src <> dest ->
  fs_copy src dest w =
  (Resolved tt, write_file dest contents (add_log (FsCopy src dest) w)).
Proof.
  intros Hsrc Hne. unfold fs_copy. rewrite Hsrc.
  by destruct (decide (src = dest)).
Qed.

Lemma fs_copy_rejected src dest w :
  files w !! src = None \/ src = dest ->
  (exists e, fst (fs_copy src dest w) = Rejected e)
  /\ files (snd (fs_copy src dest w)) = files w.
Proof.
  intros H. unfold fs_copy. destruct (files w !! src) as [contents|].
  - destruct H as [H|H]; [discriminate|].
    destruct (decide (src = dest)); [|done]. split; [by eexists|reflexivity].
  - split; [by eexists|reflexivity].
Qed.

Lemma upload_run options w :
  upload options w =
  let w0 := add_log (HandlePermissions "settings" "edit" (o_context options)) w in
  match handlePermissions "settings" "edit" (o_context options) with
  | Some e => (Rejected e, w0)
  | None =>
      match files w !! RoutesYaml with
      | None => fs_copy RoutesYaml (RoutesBackup now) w0
      | Some A =>
          let w1 :=
            write_file (RoutesBackup now) A
              (add_log (FsCopy RoutesYaml (RoutesBackup now)) w0) in
          match files w1 !! o_path options with
          | None => fs_copy (o_path options) RoutesYaml w1
          | Some B =>
              if decide (o_path options = RoutesYaml)
              then fs_copy (o_path options) RoutesYaml w1
              else
                match siteApp_reload (staged options A B w) with
                | None =>
                    (Resolved tt, add_log SiteAppReload (staged options A B w))
                | Some err =>
                    (Rejected
                       (default err (siteApp_reload (restored options A B w))),
                     add_log SiteAppReload (restored options A B w))
                end
          end
      end
  end.
Proof.
  unfold upload, handlePermissions_call. cbv zeta.
  unfold mbind at 1 2, Promise_bind, emit.
  destruct (handlePermissions "settings" "edit" (o_context options));
    [reflexivity|].
  unfold mret, Promise_ret.
  destruct (files w !! RoutesYaml) as [A|] eqn:HA.
  - unfold mbind at 1, Promise_bind.
    rewrite (fs_copy_run _ _ A); [|exact HA|discriminate].
    cbv zeta.
    destruct (files (write_file (RoutesBackup now) A _) !! o_path options)
      as [B|] eqn:HB.
    + destruct (decide (o_path options = RoutesYaml)) as [Heq|Hne].
      * unfold mbind at 1, Promise_bind.
        unfold fs_copy at 1. rewrite HB.
        destruct (decide (o_path options = RoutesYaml)); [|done].
        unfold fs_copy. rewrite HB.
        by destruct (decide (o_path options = RoutesYaml)).
      * unfold mbind at 1, Promise_bind.
        rewrite (fs_copy_run _ _ B); [|exact HB|exact Hne].
        unfold mbind at 1, Promise_bind, emit.
        unfold try_catch, siteApp_reload_call.
        fold (staged options A B w).
        destruct (siteApp_reload (staged options A B w)) as [err|];
          [|reflexivity].
        unfold mbind at 1, Promise_bind.
        rewrite (fs_copy_run _ _ A); [| |discriminate].
        -- fold (restored options A B w).
           unfold mbind, Promise_bind, in_then, reject.
           by destruct (siteApp_reload (restored options A B w)).
        -- simpl. rewrite lookup_insert_ne; [|discriminate].
           by rewrite lookup_insert_eq.
    + unfold mbind at 1, Promise_bind. unfold fs_copy at 1. rewrite HB.
      unfold fs_copy. by rewrite HB.
  - unfold mbind at 1, Promise_bind. unfold fs_copy at 1.
    simpl. rewrite HA. unfold fs_copy. simpl. by rewrite HA.
Qed.

Lemma staged_log options A B w :
  log (staged options A B w) =
  log w ++ [HandlePermissions "settings" "edit" (o_context options);
            FsCopy RoutesYaml (RoutesBackup now);
            FsCopy (o_path options) RoutesYaml;
            ResetGenerators].
Proof. unfold staged. simpl. by rewrite <- !app_assoc. Qed.

Lemma restored_log options A B w :
  log (restored options A B w) =
  log w ++ [HandlePermissions "settings" "edit" (o_context options);
            FsCopy RoutesYaml (RoutesBackup now);
            FsCopy (o_path options) RoutesYaml;
            ResetGenerators;
            SiteAppReload;
            FsCopy (RoutesBackup now) RoutesYaml].
Proof. unfold restored, staged. simpl. by rewrite <- !app_assoc. Qed.

(** *** The claims about upload and download *)


(** *** upload with the failures of its collaborators, step by step *)

Lemma fs_copy_io_no_fault src dest w :
  copy_fault w src dest = None -> fs_copy_io src dest w = fs_copy src dest w.
Proof. intros H. unfold fs_copy_io, fs_copy. by rewrite H. Qed.

(** Where the three copies and the reset do not fail, [upload_io] is
    [upload]. *)
Lemma upload_io_fault_free options w :
  copy_fault
    (add_log (HandlePermissions "settings" "edit" (o_context options)) w)
    RoutesYaml (RoutesBackup now) = None ->
  (forall w', copy_fault w' (o_path options) RoutesYaml = None) ->
  (forall w', copy_fault w' (RoutesBackup now) RoutesYaml = None) ->
  (forall w', urlService_resetGenerators w' = None) ->
  upload_io options w = upload options w.
Proof.
  intros Hbackup Hreplace Hrestore Hreset.
  unfold upload_io, upload, handlePermissions_call. cbv zeta.
  unfold mbind, Promise_bind, emit, mret, Promise_ret, reject.
  destruct (handlePermissions "settings" "edit" (o_context options));
    [reflexivity|].
  rewrite (fs_copy_io_no_fault _ _ _ Hbackup).
  destruct (fs_copy RoutesYaml (RoutesBackup now) _) as [[[]|e|e] w1];
    try reflexivity.
  rewrite (fs_copy_io_no_fault _ _ _ (Hreplace w1)).
  destruct (fs_copy (o_path options) RoutesYaml w1) as [[[]|e|e] w2];
    try reflexivity.
  unfold in_then at 1, urlService_resetGenerators_call. rewrite Hreset.
  unfold try_catch.
  destruct (siteApp_reload_call (add_log ResetGenerators w2))
    as [[[]|e|e] w3]; try reflexivity.
  by rewrite (fs_copy_io_no_fault _ _ _ (Hrestore w3)).
Qed.

(** An upload whose backup copy fails is rejected with the artifact as it
    was. *)
Lemma upload_io_backup_fault options w e leftover :
  copy_fault
    (add_log (HandlePermissions "settings" "edit" (o_context options)) w)
    RoutesYaml (RoutesBackup now) = Some (e, leftover) ->
  (exists e', fst (upload_io options w) = Rejected e')
  /\ files (snd (upload_io options w)) !! RoutesYaml = files w !! RoutesYaml.
Proof.
  intros Hfault.
  assert (Hrun : exists e' w',
            upload_io options w = (Rejected e', w')
            /\ files w' !! RoutesYaml = files w !! RoutesYaml).
  { unfold upload_io, handlePermissions_call. cbv zeta.
    unfold mbind, Promise_bind, emit, mret, Promise_ret, reject.
    destruct (handlePermissions "settings" "edit" (o_context options));
      [by eexists _, _|].
    unfold fs_copy_io at 1. cbn [files add_log].
    destruct (files w !! RoutesYaml) as [A|] eqn:HA; [|by eexists _, _].
    destruct (decide (RoutesYaml = RoutesBackup now)); [discriminate|].
    rewrite Hfault. eexists _, _. split; [reflexivity|].
    destruct leftover; simpl; [exact HA| |].
    - by rewrite lookup_insert_ne by discriminate.
    - by rewrite lookup_delete_ne by discriminate. }
  destruct Hrun as (e' & w' & -> & Hsame). split; [by eexists|exact Hsame].
Qed.

Section Loadable.

(** The configurations the site app can load, and what a reload that
    returns tells: the artifact it read is one of them. *)
Variable loadable : option string -> Prop.
Hypothesis reload_sound :
  forall w, siteApp_reload w = None -> loadable (files w !! RoutesYaml).

(** On a file system whose copies fail only for want of a source, and with
    a reset that returns ([upload]): if the artifact was loadable before, it
    is loadable when the upload ends. *)
Lemma upload_fault_free_loadable options w :
  loadable (files w !! RoutesYaml) ->
  loadable (files (snd (upload options w)) !! RoutesYaml)
  /\ (((exists e, fst (upload options w) = Rejected e)
       /\ files (snd (upload options w)) !! RoutesYaml = files w !! RoutesYaml)
      \/
      (fst (upload options w) = Resolved tt
       /\ exists A B,
            files w !! RoutesYaml = Some A
            /\ files (write_file (RoutesBackup now) A w) !! o_path options
               = Some B
            /\ files (snd (upload options w)) !! RoutesYaml = Some B)).
Proof.
  intros Hprior.
  assert (Hgoal :
    ((exists e, fst (upload options w) = Rejected e)
     /\ files (snd (upload options w)) !! RoutesYaml = files w !! RoutesYaml)
    \/
    (fst (upload options w) = Resolved tt
     /\ loadable (files (snd (upload options w)) !! RoutesYaml)
     /\ exists A B,
          files w !! RoutesYaml = Some A
          /\ files (write_file (RoutesBackup now) A w) !! o_path options
             = Some B
          /\ files (snd (upload options w)) !! RoutesYaml = Some B)).
  { rewrite upload_run. cbv zeta.
    destruct (handlePermissions "settings" "edit" (o_context options));
      [left; by split; [eexists|]|].
    destruct (files w !! RoutesYaml) as [A|] eqn:HA.
    - change (files (write_file (RoutesBackup now) A
                       (add_log (FsCopy RoutesYaml (RoutesBackup now))
                          (add_log (HandlePermissions "settings" "edit"
                                      (o_context options)) w))))
        with (files (write_file (RoutesBackup now) A w)).
      destruct (files (write_file (RoutesBackup now) A w) !! o_path options)
        as [B|] eqn:HB.
      + destruct (decide (o_path options = RoutesYaml)) as [Heq|Hne].
        * left. edestruct fs_copy_rejected as [Hrej ->];
            [right; exact Heq|]. split; [exact Hrej|]. simpl.
          by rewrite lookup_insert_ne by discriminate.
        * destruct (siteApp_reload (staged options A B w)) as [err|] eqn:Hr.
          -- left. split; [by eexists|]. unfold restored. simpl.
             by rewrite lookup_insert_eq.
          -- right. split; [reflexivity|]. split.
             ++ apply (reload_sound _ Hr).
             ++ exists A, B. split; [reflexivity|]. split; [exact HB|].
                unfold staged. simpl. by rewrite lookup_insert_eq.
      + left. edestruct fs_copy_rejected as [Hrej ->];
          [left; exact HB|]. split; [exact Hrej|]. simpl.
        by rewrite lookup_insert_ne by discriminate.
    - left. edestruct fs_copy_rejected as [Hrej ->];
        [left; exact HA|]. split; [exact Hrej|]. simpl. exact HA. }
  destruct Hgoal as [[Hrej Hsame]|(Hres & Hload & Hnew)].
  - split; [by rewrite Hsame|]. left. by split.
  - split; [exact Hload|]. right. by split.
Qed.


End Loadable.

(** C8.  Once the permission check has passed, [download] resolves with
    [[]] when there is no artifact; a failure to read it whose code is not
    [ENOENT] is passed on as it is when it is an error of the
    [common.errors] classes, and wrapped in a not-found error otherwise; the
    text of the artifact is the result when it is read. *)
Theorem download_outcomes options w :
  handlePermissions "settings" "browse" (o_context options) = None ->
  let w0 :=
    add_log (HandlePermissions "settings" "browse" (o_context options)) w in
  let w1 := add_log (FsReadFile RoutesYaml) w0 in
  (files w !! RoutesYaml = None ->
   download options w = (Resolved EmptyArray, w1))
  /\ (forall contents e,
        files w !! RoutesYaml = Some contents ->
        readFile_fault w0 RoutesYaml = Some e ->
        err_code e <> Some "ENOENT" ->
        download options w =
        (Rejected (if isIgnitionError e then e
                   else GhostError NotFoundError None None None (Some e)), w1))
  /\ (forall contents,
        files w !! RoutesYaml = Some contents ->
        readFile_fault w0 RoutesYaml = None ->
        download options w = (Resolved (FileText contents), w1)).
Proof.
  intros Hperm. cbv zeta.
  unfold download, catch, handlePermissions_call, fs_readFile. promise_steps.
  rewrite Hperm. simpl. split; [|split].
  - by intros ->.
  - intros contents e -> -> Hcode. rewrite bool_decide_eq_false_2 by exact Hcode.
    by destruct (isIgnitionError e).
  - by intros contents -> ->.
Qed.

(** ** Further properties *)

(** *** The helpers *)

Lemma split_without_separator sep s :
  contains sep s = false -> split sep s = [s].
Proof.
  induction s as [|c s IH]; simpl; [reflexivity|].
  intros H. apply orb_false_iff in H as [Hc Hs].
  rewrite Hc, (IH Hs). reflexivity.
Qed.

Lemma split_append sep x rest :
  contains sep x = false ->
  split sep (x +:+ String sep rest) = x :: split sep rest.
Proof.
  induction x as [|c x IH]; simpl.
  - intros _. by rewrite Ascii.eqb_refl.
  - intros H. apply orb_false_iff in H as [Hc Hx].
    rewrite Hc, (IH Hx). reflexivity.
Qed.

Lemma split_join sep types :
  types <> [] ->
  Forall (fun t => contains sep t = false) types ->
  split sep (join sep types) = types.
Proof.
  intros Hne Htypes. induction Htypes as [|t rest Ht Hrest IH]; [done|].
  destruct rest as [|t' rest'].
  - simpl. by apply split_without_separator.
  - change (join sep (t :: t' :: rest'))
      with (t +:+ String sep (join sep (t' :: rest'))).
    rewrite split_append by exact Ht. by rewrite IH.
Qed.

Lemma includes_In types x : includes types x = true <-> In x types.
Proof.
  unfold includes. rewrite existsb_exists. split.
  - intros (y & Hy & Heq). apply String.eqb_eq in Heq. by subst.
  - intros H. exists x. split; [exact H|apply String.eqb_refl].
Qed.

Lemma filter_all {A : Type} (l : list A) : List.filter (fun _ => true) l = l.
Proof. induction l as [|x l IH]; simpl; [reflexivity|by rewrite IH]. Qed.

(** X1.  With a filter that lists types separated by commas,
    [settingsFilter] keeps the settings whose type is one of these types,
    and no other, in their order. *)
Theorem settingsFilter_by_types (settings : list Setting) (types : list string) :
  types <> [] ->
  Forall (fun t => contains "," t = false) types ->
  join "," types <> "" ->
  settingsFilter settings (Some (join "," types))
  = List.filter (fun setting => includes types (s_type setting)) settings
  /\ forall setting,
       In setting (settingsFilter settings (Some (join "," types)))
       <-> In setting settings /\ In (s_type setting) types.
Proof.
  intros Hne Htypes Hjoin.
  assert (Heq : settingsFilter settings (Some (join "," types))
                = List.filter (fun setting => includes types (s_type setting))
                    settings).
  { unfold settingsFilter, filteredTypes.
    destruct (String.eqb_spec (join "," types) ""); [done|].
    by rewrite split_join. }
  split; [exact Heq|]. intros setting.
  by rewrite Heq, filter_In, includes_In.
Qed.

(** X2.  With no filter, or with the empty string as filter,
    [settingsResult] passes all the settings through, in their order, and
    leaves [meta] without filters; filtering what a filter has let through
    with the same filter changes nothing. *)
Theorem settingsResult_without_filter (settings : list Setting)
    (filter : option string) :
  settingsResult settings None = mkResult settings None
  /\ settingsResult settings (Some "") = mkResult settings None
  /\ settingsFilter (settingsFilter settings filter) filter
     = settingsFilter settings filter.
Proof.
  split; [|split].
  - unfold settingsResult, settingsFilter. simpl. by rewrite filter_all.
  - unfold settingsResult, settingsFilter. simpl. by rewrite filter_all.
  - unfold settingsFilter. induction settings as [|x l IH]; [reflexivity|].
    simpl. destruct (filteredTypes filter) as [types|].
    + destruct (includes types (s_type x)) eqn:Hx; simpl; [|exact IH].
      by rewrite Hx, IH.
    + simpl. by rewrite IH.
Qed.

(** *** canEditAllSettings *)

Lemma verdict_none checks :
  verdict checks = None <-> Forall (fun c => fails c = false) checks.
Proof.
  unfold verdict. induction checks as [|c rest IH]; simpl.
  - split; [constructor|reflexivity].
  - destruct c as [e|[e|]]; simpl.
    + split; [discriminate|]. intros H. by inversion H.
    + destruct (firstRejected rest); (split; [discriminate|]);
        intros H; by inversion H.
    + rewrite IH. split.
      * intros H. by constructor.
      * intros H. by inversion H.
Qed.

Lemma checkOf_passes cache options settingInfo :
  fails (checkOf cache options settingInfo) = false
  <-> authorized cache options settingInfo.
Proof.
  unfold checkOf, authorized. split.
  - destruct (settingsCache_get cache (e_key settingInfo))
      as [setting|] eqn:Hget; [|discriminate].
    apply settingsCache_get_key in Hget as Hkey. rewrite Hkey.
    destruct (String.eqb_spec (e_key settingInfo) "active_theme");
      [discriminate|].
    destruct (String.eqb_spec (s_type setting) "core") as [Htype|Htype];
      simpl.
    + destruct (isInternal (js_get options "context")) eqn:Hctx; simpl;
        [|discriminate].
      destruct (canThis _ _ _) eqn:Hcan; [discriminate|].
      intros _. exists setting. by repeat split.
    + destruct (canThis _ _ _) eqn:Hcan; [discriminate|].
      intros _. exists setting. by repeat split.
  - intros (setting & Hget & Hkey & Hcore & Hcan). rewrite Hget.
    apply settingsCache_get_key in Hget. rewrite Hget.
    destruct (String.eqb_spec (e_key settingInfo) "active_theme"); [done|].
    destruct (String.eqb_spec (s_type setting) "core") as [Htype|Htype];
      simpl.
    + rewrite (Hcore Htype). simpl. by rewrite Hcan.
    + by rewrite Hcan.
Qed.

Lemma verdict_authorized cache options settingsInfo :
  verdict (map (checkOf cache options) settingsInfo) = None
  <-> Forall (authorized cache options) settingsInfo.
Proof.
  rewrite verdict_none, List.Forall_map.
  split; apply List.Forall_impl; intros x; apply checkOf_passes.
Qed.

(** X3.  [canEditAllSettings] resolves when, and only when, every entry of
    the batch is a cached setting other than [active_theme], none is of type
    [core] unless the context is internal, and the permission engine lets
    the context edit each of them. *)
Theorem canEditAllSettings_resolves_iff settingsInfo options w :
  fst (canEditAllSettings settingsInfo options w) = Resolved tt
  <-> Forall (authorized (settingsCache w) options) settingsInfo.
Proof.
  rewrite canEditAllSettings_run, <- verdict_authorized. simpl.
  destruct (verdict _); split; (done || discriminate).
Qed.

Lemma firstRejected_errors cache options settingsInfo e :
  firstRejected (map (checkOf cache options) settingsInfo) = Some e ->
  (exists settingInfo,
     In settingInfo settingsInfo
     /\ e = problemFindingSetting (e_key settingInfo))
  \/ e = activeThemeSetViaAPI
  \/ e = accessCoreSettingFromExtReq.
Proof.
  induction settingsInfo as [|x rest IH]; simpl; [discriminate|].
  destruct (checkOf cache options x) as [e'|settles] eqn:Hx.
  - intros [= <-]. unfold checkOf in Hx.
    destruct (settingsCache_get cache (e_key x)) as [setting|].
    + destruct (String.eqb (s_key setting) "active_theme");
        [injection Hx as <-; auto|].
      destruct (String.eqb (s_type setting) "core"
                && negb (isInternal (js_get options "context")));
        [injection Hx as <-; auto|discriminate].
    + injection Hx as <-. left. exists x. auto.
  - intros H. destruct (IH H) as [(y & Hy & ->)|H']; [|auto].
    left. exists y. auto.
Qed.

Lemma firstRefused_error cache options settingsInfo e :
  firstRefused (map (checkOf cache options) settingsInfo) = Some e ->
  e = noPermissionToEditSettings.
Proof.
  induction settingsInfo as [|x rest IH]; simpl; [discriminate|].
  destruct (checkOf cache options x) as [e'|[e'|]] eqn:Hx; [exact IH| |exact IH].
  intros [= <-]. unfold checkOf in Hx.
  destruct (settingsCache_get cache (e_key x)) as [setting|]; [|discriminate].
  destruct (String.eqb (s_key setting) "active_theme"); [discriminate|].
  destruct (String.eqb (s_type setting) "core"
            && negb (isInternal (js_get options "context"))); [discriminate|].
  destruct (canThis _ _ _); by injection Hx.
Qed.

(** X4.  [canEditAllSettings] never throws, and when it is rejected the
    reason is one of four errors of the API: the not-found error of a key
    of the batch, the bad request of [active_theme], or one of the two
    permission errors.  What the permission engine gave as its reason is
    never passed on. *)
Theorem canEditAllSettings_errors settingsInfo options w :
  match fst (canEditAllSettings settingsInfo options w) with
  | Resolved _ => True
  | Rejected e =>
      (exists settingInfo,
         In settingInfo settingsInfo
         /\ e = problemFindingSetting (e_key settingInfo))
      \/ e = activeThemeSetViaAPI
      \/ e = accessCoreSettingFromExtReq
      \/ e = noPermissionToEditSettings
  | Thrown _ => False
  end.
Proof.
  rewrite canEditAllSettings_run. simpl. unfold verdict.
  destruct (firstRejected _) as [e|] eqn:Hrej.
  - destruct (firstRejected_errors _ _ _ _ Hrej) as [H|[H|H]]; auto.
  - destruct (firstRefused _) as [e|] eqn:Href; [|exact I].
    apply firstRefused_error in Href. auto.
Qed.

(** *** browse and read *)

(** X5.  [browse] with a context asks the permission engine once; when the
    engine refuses, the promise is rejected with the engine's own reason,
    as it is (unlike [read] and [edit], which put an error of their own in
    its place), and the cache and the files are as they were. *)
Theorem browse_refused (options : BrowseOptions) (w : World) e :
  truthy (b_context options) = true ->
  canThis (b_context options) Browse None = Some e ->
  browse (Some options) w
  = (Rejected e, add_log (CanThis (b_context options) Browse None) w).
Proof.
  intros Hctx Hcan. unfold browse, canThis_call. promise_steps. cbv zeta.
  simpl. by rewrite Hctx, Hcan.
Qed.

(** X6.  When the engine lets the context browse, [browse] resolves with a
    result in the API format whose settings are the cached settings that
    pass the type filter: all of them for an internal context, the core
    settings among them; for any other context those that are neither of
    type [core] nor [permalinks].  [meta] is the one of the filter. *)
Theorem browse_visible (options : BrowseOptions) (w : World) :
  truthy (b_context options) = true ->
  canThis (b_context options) Browse None = None ->
  exists result,
    browse (Some options) w
    = (Resolved (SettingsResult result),
       add_log (CanThis (b_context options) Browse None) w)
    /\ meta_filters_type result
       = meta_filters_type (settingsResult (settingsCache w) (b_type options))
    /\ forall setting,
         In setting (settings result)
         <-> In setting (settingsFilter (settingsCache w) (b_type options))
             /\ (truthy (js_get (b_context options) "internal") = true
                 \/ (s_type setting <> "core"
                     /\ s_key setting <> "permalinks")).
Proof.
  intros Hctx Hcan. unfold browse, canThis_call. promise_steps. cbv zeta.
  simpl. rewrite Hctx, Hcan. simpl.
  destruct (truthy (js_get (b_context options) "internal")) eqn:Hint; simpl.
  - eexists. split; [reflexivity|]. split; [reflexivity|].
    intros setting. simpl. unfold settingsCache_getAll. split.
    + intros H. split; [exact H|by left].
    + by intros [H _].
  - eexists. split; [reflexivity|]. split; [reflexivity|].
    intros setting. simpl. unfold settingsCache_getAll.
    rewrite filter_In, andb_true_iff, !negb_true_iff.
    split.
    + intros (H & Htype & Hkey). split; [exact H|]. right. split.
      * intros Heq. by rewrite Heq in Htype.
      * intros Heq. by rewrite Heq in Hkey.
    + intros (H & [Hfalse|[Htype Hkey]]); [discriminate|].
      split; [exact H|]. split.
      * by destruct (String.eqb_spec (s_type setting) "core").
      * by destruct (String.eqb_spec (s_key setting) "permalinks").
Qed.

(** X7.  [read] never throws and leaves the cache and the files as they
    were.  When it resolves, the result holds the one cached setting of the
    key, with no filter in [meta]; the key is not [permalinks], a setting
    of type [core] was read from an internal context, and a setting that is
    not of type [blog] was let through by the permission engine.  When it is
    rejected, the reason is one of four errors of the API, never the reason
    the engine gave.  The engine is asked once at most. *)
Theorem read_outcomes (options : ReadOptions) (w : World) :
  match fst (read options w) with
  | Resolved result =>
      exists setting,
        settingsCache_get (settingsCache w) (ro_key options) = Some setting
        /\ result = mkResult [setting] None
        /\ ro_key options <> "permalinks"
        /\ (s_type setting = "core" ->
            isInternal (ro_context options) = true)
        /\ (s_type setting <> "blog" ->
            canThis (ro_context options) Read (Some (ro_key options)) = None)
  | Rejected e =>
      e = problemFindingSetting (ro_key options)
      \/ e = accessCoreSettingFromExtReq
      \/ e = resourceNotFound
      \/ e = noPermissionToReadSettings
  | Thrown _ => False
  end
  /\ settingsCache (snd (read options w)) = settingsCache w
  /\ files (snd (read options w)) = files w
  /\ (log (snd (read options w)) = log w
      \/ log (snd (read options w))
         = log w ++ [CanThis (ro_context options) Read (Some (ro_key options))]).
Proof.
  unfold read, catch, canThis_call. promise_steps. cbv zeta.
  destruct (settingsCache_get (settingsCache w) (ro_key options))
    as [setting|] eqn:Hget; simpl; [|by auto 6].
  apply settingsCache_get_key in Hget as Hkey. rewrite Hkey.
  destruct (String.eqb_spec (s_type setting) "core") as [Hcore|Hcore]; simpl.
  - destruct (isInternal (ro_context options)) eqn:Hctx; simpl; [|by auto 6].
    destruct (String.eqb_spec (ro_key options) "permalinks") as [Hp|Hp];
      simpl; [by auto 6|].
    destruct (String.eqb_spec (s_type setting) "blog") as [Hblog|Hblog];
      simpl.
    + split; [|by auto]. exists setting. by repeat split.
    + destruct (canThis (ro_context options) Read (Some (ro_key options)))
        eqn:Hcan; simpl; [by auto 6|].
      split; [|by auto]. exists setting. by repeat split.
  - destruct (String.eqb_spec (ro_key options) "permalinks") as [Hp|Hp];
      simpl; [by auto 6|].
    destruct (String.eqb_spec (s_type setting) "blog") as [Hblog|Hblog];
      simpl.
    + split; [|by auto]. exists setting. by repeat split.
    + destruct (canThis (ro_context options) Read (Some (ro_key options)))
        eqn:Hcan; simpl; [by auto 6|].
      split; [|by auto]. exists setting. by repeat split.
Qed.

(** X8.  A cached setting of type [blog], other than [permalinks], is read
    by anybody: [read] resolves with it for every context, an absent one
    included, without asking the permission engine, whatever the engine
    would answer. *)
Theorem read_blog_setting (options : ReadOptions) (w : World) setting :
  settingsCache_get (settingsCache w) (ro_key options) = Some setting ->
  s_type setting = "blog" ->
  ro_key options <> "permalinks" ->
  read options w = (Resolved (mkResult [setting] None), w).
Proof.
  intros Hget Htype Hkey. unfold read. promise_steps. cbv zeta.
  rewrite Hget. apply settingsCache_get_key in Hget. rewrite Hget, Htype.
  simpl. by destruct (String.eqb_spec (ro_key options) "permalinks").
Qed.

(** X9.  For a cached setting that is not of type [blog] and is not
    [permalinks], read from a context that may see it (any context, or an
    internal one for a setting of type [core]), [read] asks the permission
    engine once, an internal context included: it resolves with the setting
    when the engine agrees, and is rejected with [noPermissionToReadSettings]
    when it refuses, whatever its reason. *)
Theorem read_asks_engine (options : ReadOptions) (w : World) setting :
  settingsCache_get (settingsCache w) (ro_key options) = Some setting ->
  s_type setting <> "blog" ->
  (s_type setting = "core" -> isInternal (ro_context options) = true) ->
  ro_key options <> "permalinks" ->
  read options w
  = (match canThis (ro_context options) Read (Some (ro_key options)) with
     | None => Resolved (mkResult [setting] None)
     | Some _ => Rejected noPermissionToReadSettings
     end,
     add_log (CanThis (ro_context options) Read (Some (ro_key options))) w).
Proof.
  intros Hget Htype Hcore Hkey.
  unfold read, catch, canThis_call. promise_steps. cbv zeta.
  rewrite Hget. apply settingsCache_get_key in Hget. rewrite Hget.
  assert (Hgate : String.eqb (s_type setting) "core"
                  && negb (isInternal (ro_context options)) = false).
  { destruct (String.eqb_spec (s_type setting) "core") as [Hc|_];
      [|reflexivity]. by rewrite (Hcore Hc). }
  rewrite Hgate.
  destruct (String.eqb_spec (ro_key options) "permalinks"); [done|].
  destruct (String.eqb_spec (s_type setting) "blog"); [done|].
  simpl. by destruct (canThis _ _ _).
Qed.

(** *** edit *)

Lemma consulted_authorized cache options settingsInfo :
  Forall (authorized cache options) settingsInfo ->
  flat_map (consulted cache options) settingsInfo
  = map (fun settingInfo =>
           CanThis (js_get options "context") Edit (Some (e_key settingInfo)))
      settingsInfo.
Proof.
  induction 1 as [|x rest Hx _ IH]; [reflexivity|].
  simpl. rewrite IH. unfold consulted.
  apply checkOf_passes in Hx.
  by destruct (checkOf cache options x) as [e|[e|]].
Qed.

Lemma persisted_asked options (settingsInfo : list Entry) :
  persisted
    (map (fun settingInfo =>
            CanThis (js_get options "context") Edit (Some (e_key settingInfo)))
       settingsInfo) = [].
Proof. induction settingsInfo as [|x rest IH]; [reflexivity|exact IH]. Qed.

(** X10.  The model is handed a batch only when the whole batch passed:
    if an [edit] calls [models.Settings.edit], the batch (the [type]
    entries aside) is not empty, does not start with [permalinks], every
    entry of it is authorized, the document checker accepted it, and the
    model is called once, with the entries the checker gave back. *)
Theorem edit_persists_only_authorized object options w :
  persisted (log (snd (edit object options w))) <> persisted (log w) ->
  exists first rest checkedData,
    withoutType (cleanData object (orEmpty options)) = first :: rest
    /\ e_key first <> "permalinks"
    /\ Forall (authorized (settingsCache w) (orEmpty options)) (first :: rest)
    /\ checkObject (first :: rest) = inr checkedData
    /\ persisted (log (snd (edit object options w)))
       = persisted (log w) ++ [checkedData].
Proof.
  rewrite edit_run. cbv zeta.
  destruct (withoutType (cleanData object (orEmpty options)))
    as [|first rest] eqn:Hsettings; [done|].
  destruct (String.eqb_spec (e_key first) "permalinks") as [Hp|Hp]; [done|].
  destruct (verdict _) as [e|] eqn:Hverdict.
  - cbn [snd log add_logs]. intros H. exfalso. apply H.
    by rewrite persisted_app, persisted_consulted, app_nil_r.
  - apply verdict_authorized in Hverdict.
    destruct (checkObject (first :: rest)) as [e|checkedData] eqn:Hcheck.
    + cbn [snd log add_logs add_log]. intros H. exfalso. apply H.
      rewrite !persisted_app, persisted_consulted. simpl.
      by rewrite ?app_nil_r.
    + intros _. exists first, rest, checkedData.
      repeat (split; [done|]).
      destruct (Settings_edit checkedData (orEmpty options));
        cbn [snd log add_logs add_log];
        rewrite !persisted_app, persisted_consulted; simpl;
        by rewrite ?app_nil_r.
Qed.

Lemma edit_authorized_run object options w first rest :
  withoutType (cleanData object (orEmpty options)) = first :: rest ->
  e_key first <> "permalinks" ->
  Forall (authorized (settingsCache w) (orEmpty options)) (first :: rest) ->
  fst (edit object options w)
  = match checkObject (first :: rest) with
    | inl e => Rejected e
    | inr checkedData =>
        match Settings_edit checkedData (orEmpty options) with
        | inl e => Rejected e
        | inr models =>
            Resolved (settingsResult (keyBy models)
                        (typeOf (cleanData object (orEmpty options))))
        end
    end
  /\ log (snd (edit object options w))
     = log w
       ++ map (fun settingInfo =>
                 CanThis (js_get (orEmpty options) "context") Edit
                   (Some (e_key settingInfo))) (first :: rest)
       ++ CheckObject (first :: rest)
          :: match checkObject (first :: rest) with
             | inl _ => []
             | inr checkedData => [SettingsEdit checkedData (orEmpty options)]
             end.
Proof.
  intros Hsettings Hp Hauth. rewrite edit_run. cbv zeta. rewrite Hsettings.
  destruct (String.eqb_spec (e_key first) "permalinks"); [done|].
  rewrite (proj2 (verdict_authorized _ _ _) Hauth).
  rewrite (consulted_authorized _ _ _ Hauth).
  destruct (checkObject (first :: rest)) as [e|checkedData].
  - split; [reflexivity|]. cbn [snd log add_logs add_log].
    by rewrite <- app_assoc.
  - destruct (Settings_edit checkedData (orEmpty options));
      (split; [reflexivity|]); cbn [snd log add_logs add_log];
      by rewrite <- !app_assoc.
Qed.

(** X11.  An [edit] whose batch passes goes on in this order: it asks the
    permission engine about every entry, in the order of the batch, hands
    the batch to the document checker, and hands what the checker gives
    back to the model.  An error of the checker or of the model is the
    reason of the rejection, as it is; after an error of the checker the
    model is not called. *)
Theorem edit_of_authorized_batch object options w first rest :
  withoutType (cleanData object (orEmpty options)) = first :: rest ->
  e_key first <> "permalinks" ->
  Forall (authorized (settingsCache w) (orEmpty options)) (first :: rest) ->
  fst (edit object options w)
  = match checkObject (first :: rest) with
    | inl e => Rejected e
    | inr checkedData =>
        match Settings_edit checkedData (orEmpty options) with
        | inl e => Rejected e
        | inr models =>
            Resolved (settingsResult (keyBy models)
                        (typeOf (cleanData object (orEmpty options))))
        end
    end
  /\ log (snd (edit object options w))
     = log w
       ++ map (fun settingInfo =>
                 CanThis (js_get (orEmpty options) "context") Edit
                   (Some (e_key settingInfo))) (first :: rest)
       ++ CheckObject (first :: rest)
          :: match checkObject (first :: rest) with
             | inl _ => []
             | inr checkedData => [SettingsEdit checkedData (orEmpty options)]
             end.
Proof. apply edit_authorized_run. Qed.

Lemma keyBy_snoc models x : keyBy (models ++ [x]) = upsert x (keyBy models).
Proof. unfold keyBy. by rewrite fold_left_app. Qed.

Lemma upsert_keys s keyed k :
  In k (map s_key (upsert s keyed)) -> k = s_key s \/ In k (map s_key keyed).
Proof.
  induction keyed as [|x rest IH]; simpl.
  - intros [<-|[]]. by left.
  - destruct (String.eqb_spec (s_key x) (s_key s)) as [Heq|Hne]; simpl.
    + intros [<-|H]; [by left|by right; right].
    + intros [<-|H]; [by right; left|].
      destruct (IH H); [by left|by right; right].
Qed.

Lemma upsert_NoDup s keyed :
  List.NoDup (map s_key keyed) -> List.NoDup (map s_key (upsert s keyed)).
Proof.
  induction keyed as [|x rest IH]; simpl.
  - intros _. constructor; [intros []|constructor].
  - intros H. apply List.NoDup_cons_iff in H as [Hx Hrest].
    destruct (String.eqb_spec (s_key x) (s_key s)) as [Heq|Hne]; simpl.
    + constructor; [|exact Hrest]. by rewrite <- Heq.
    + constructor; [|by apply IH].
      intros H. apply upsert_keys in H as [H|H]; [done|by apply Hx].
Qed.

Lemma upsert_In s keyed y :
  List.NoDup (map s_key keyed) ->
  In y (upsert s keyed) <-> y = s \/ (In y keyed /\ s_key y <> s_key s).
Proof.
  induction keyed as [|x rest IH]; simpl.
  - intros _. split; [intros [<-|[]]; by left|intros [->|[[] _]]; by left].
  - intros H. apply List.NoDup_cons_iff in H as [Hx Hrest].
    destruct (String.eqb_spec (s_key x) (s_key s)) as [Heq|Hne]; simpl.
    + split.
      * intros [<-|H]; [by left|]. right. split; [by right|].
        intros Hy. apply Hx. rewrite Heq, <- Hy. by apply in_map.
      * intros [->|[[<-|H] Hy]]; [by left|done|by right].
    + rewrite (IH Hrest). split.
      * intros [<-|[->|[H Hy]]]; [right; by split; [left|]|by left|].
        right. split; [by right|exact Hy].
      * intros [->|[[<-|H] Hy]]; [right; by left|by left|].
        right. right. by split.
Qed.

Lemma keyBy_spec models :
  List.NoDup (map s_key (keyBy models))
  /\ forall s,
       In s (keyBy models)
       <-> exists pre post,
             models = pre ++ s :: post
             /\ Forall (fun x => s_key x <> s_key s) post.
Proof.
  induction models as [|x l [IHnodup IHin]] using rev_ind.
  - split; [constructor|]. intros s. split; [intros []|].
    intros (pre & post & H & _). by destruct pre.
  - rewrite keyBy_snoc. split; [by apply upsert_NoDup|].
    intros s. rewrite (upsert_In _ _ _ IHnodup), IHin. split.
    + intros [->|[(pre & post & -> & Hpost) Hkey]].
      * exists l, []. split; [reflexivity|constructor].
      * exists pre, (post ++ [x]). split; [by rewrite <- app_assoc|].
        apply Forall_app. split; [exact Hpost|]. constructor; [|constructor].
        intros Heq. by apply Hkey.
    + intros (pre & post & Heq & Hpost).
      destruct post as [|y post' _] using rev_ind.
      * apply app_inj_tail in Heq as [_ ->]. by left.
      * change (pre ++ s :: post' ++ [y]) with (pre ++ (s :: post') ++ [y])
          in Heq.
        rewrite app_assoc in Heq. apply app_inj_tail in Heq as [-> ->].
        apply Forall_app in Hpost as [Hpost' Hy].
        right. split.
        -- exists pre, post'. by split.
        -- apply Forall_inv in Hy. intros Heq. by apply Hy.
Qed.

Lemma filter_keys_NoDup (f : Setting -> bool) l :
  List.NoDup (map s_key l) -> List.NoDup (map s_key (List.filter f l)).
Proof.
  induction l as [|x l IH]; simpl; [constructor|].
  intros H. apply List.NoDup_cons_iff in H as [Hx Hl].
  destruct (f x); [|by apply IH].
  simpl. constructor; [|by apply IH].
  intros H. apply Hx. apply in_map_iff in H as (y & Hy & H).
  apply filter_In in H as [H _]. apply in_map_iff. by exists y.
Qed.

(** X12.  The result of an [edit] that resolves has one setting at most
    for a key: its settings are settings the model gave back, each the last
    one given back for its key, and all of them pass the filter of the
    [type] entry, if the batch had one. *)
Theorem edit_result_settings object options w :
  match fst (edit object options w) with
  | Resolved result =>
      List.NoDup (map s_key (settings result))
      /\ exists checkedData models,
           checkObject (withoutType (cleanData object (orEmpty options)))
           = inr checkedData
           /\ Settings_edit checkedData (orEmpty options) = inr models
           /\ forall s,
                In s (settings result)
                <-> In s (settingsFilter models
                            (typeOf (cleanData object (orEmpty options))))
                    /\ exists pre post,
                         models = pre ++ s :: post
                         /\ Forall (fun x => s_key x <> s_key s) post
  | _ => True
  end.
Proof.
  rewrite edit_run. cbv zeta.
  destruct (withoutType (cleanData object (orEmpty options)))
    as [|first rest]; [exact I|].
  destruct (String.eqb (e_key first) "permalinks"); [exact I|].
  destruct (verdict _); [exact I|].
  destruct (checkObject (first :: rest)) as [e|checkedData]; [exact I|].
  destruct (Settings_edit checkedData (orEmpty options)) as [e|models] eqn:Hm;
    [exact I|].
  destruct (keyBy_spec models) as [Hnodup Hin]. simpl. split.
  - unfold settingsFilter. by apply filter_keys_NoDup.
  - exists checkedData, models. split; [reflexivity|]. split; [exact Hm|].
    intros s. unfold settingsFilter. rewrite !filter_In, Hin. split.
    + intros [(pre & post & Heq & Hpost) Hf]. split.
      * split; [|exact Hf]. rewrite Heq. apply in_elt.
      * by exists pre, post.
    + intros [[_ Hf] H]. by split.
Qed.

(** X13.  In the shorthand [edit(key, value)] a falsy value is lost: the
    options, and with them the value, become [{}] before the value is read,
    so what the checker and the model are handed for the key is
    [JSON.stringify({})], asked about with no context. *)
Theorem edit_shorthand_falsy key value w :
  truthy value = false ->
  key <> "type" ->
  key <> "permalinks" ->
  authorized (settingsCache w) (JObject [])
    (mkEntry key (JSON_stringify (JObject []))) ->
  log (snd (edit (EditKey key) value w))
  = log w
    ++ CanThis JUndefined Edit (Some key)
    :: CheckObject [mkEntry key (JSON_stringify (JObject []))]
    :: match checkObject [mkEntry key (JSON_stringify (JObject []))] with
       | inl _ => []
       | inr checkedData => [SettingsEdit checkedData (JObject [])]
       end.
Proof.
  intros Hvalue Htype Hp Hauth.
  assert (Hsettings :
    withoutType (cleanData (EditKey key) (orEmpty value))
    = [mkEntry key (JSON_stringify (JObject []))]).
  { unfold orEmpty. rewrite Hvalue. unfold cleanData, withoutType. simpl.
    unfold isTypeEntry. simpl.
    by destruct (String.eqb_spec key "type"). }
  assert (Hempty : orEmpty value = JObject [])
    by (unfold orEmpty; by rewrite Hvalue).
  destruct (edit_authorized_run (EditKey key) value w _ _ Hsettings)
    as [_ Hlog].
  - exact Hp.
  - rewrite Hempty. by constructor.
  - rewrite Hlog, Hempty. reflexivity.
Qed.

(** *** The batch of an edit, as the caller gives it *)

Lemma typeOf_clean (raw : list RawEntry) :
  typeOf (map clean raw) =
  match List.find (fun setting => String.eqb (r_key setting) "type") raw with
  | Some setting => e_value (clean setting)
  | None => None
  end.
Proof.
  unfold typeOf. induction raw as [|r rest IH]; [reflexivity|].
  simpl. unfold isTypeEntry at 1. simpl.
  destruct (String.eqb (r_key r) "type"); [reflexivity|exact IH].
Qed.

Lemma consulted_events cache options settingsInfo ev :
  In ev (flat_map (consulted cache options) settingsInfo) ->
  exists settingInfo,
    In settingInfo settingsInfo
    /\ ev = CanThis (js_get options "context") Edit (Some (e_key settingInfo)).
Proof.
  induction settingsInfo as [|x rest IH]; simpl; [done|].
  rewrite in_app_iff. intros [Hx|Hrest].
  - exists x. unfold consulted in Hx.
    destruct (checkOf cache options x); simpl in Hx; [done|].
    destruct Hx as [<-|[]]. auto.
  - destruct (IH Hrest) as (y & Hy & ->). exists y. auto.
Qed.

(** What [edit] does, told of the batch it works on and of the type it
    filters the result by. *)
Lemma edit_on_batch object options w batch type :
  withoutType (cleanData object (orEmpty options)) = batch ->
  typeOf (cleanData object (orEmpty options)) = type ->
  (forall first rest,
     batch = first :: rest ->
     e_key first = "permalinks" ->
     edit object options w = (Rejected resourceNotFound, w))
  /\ (exists evs,
        log (snd (edit object options w)) = log w ++ evs
        /\ forall ev,
             In ev evs ->
             (exists settingInfo,
                In settingInfo batch
                /\ ev = CanThis (js_get (orEmpty options) "context") Edit
                          (Some (e_key settingInfo)))
             \/ ev = CheckObject batch
             \/ (exists checkedData,
                   checkObject batch = inr checkedData
                   /\ ev = SettingsEdit checkedData (orEmpty options)))
  /\ (forall first rest e,
        batch = first :: rest ->
        e_key first <> "permalinks" ->
        fst (canEditAllSettings batch (orEmpty options) w) = Rejected e ->
        edit object options w
        = (Rejected e, snd (canEditAllSettings batch (orEmpty options) w)))
  /\ (forall first rest,
        batch = first :: rest ->
        e_key first <> "permalinks" ->
        Forall (authorized (settingsCache w) (orEmpty options)) batch ->
        fst (edit object options w)
        = match checkObject batch with
          | inl e => Rejected e
          | inr checkedData =>
              match Settings_edit checkedData (orEmpty options) with
              | inl e => Rejected e
              | inr models => Resolved (settingsResult (keyBy models) type)
              end
          end
        /\ log (snd (edit object options w))
           = log w
             ++ map (fun settingInfo =>
                       CanThis (js_get (orEmpty options) "context") Edit
                         (Some (e_key settingInfo))) batch
             ++ CheckObject batch
                :: match checkObject batch with
                   | inl _ => []
                   | inr checkedData =>
                       [SettingsEdit checkedData (orEmpty options)]
                   end)
  /\ match fst (edit object options w) with
     | Resolved result =>
         exists checkedData models,
           checkObject batch = inr checkedData
           /\ Settings_edit checkedData (orEmpty options) = inr models
           /\ result = settingsResult (keyBy models) type
     | _ => True
     end.
Proof.
  intros Hbatch Htype. split; [|split; [|split; [|split]]].
  - intros first rest Hb Hkey. rewrite edit_run. cbv zeta.
    by rewrite Hbatch, Hb, Hkey.
  - rewrite edit_run. cbv zeta. rewrite Hbatch.
    destruct batch as [|first rest];
      [exists []; split; [by rewrite app_nil_r|done]|].
    destruct (String.eqb (e_key first) "permalinks");
      [exists []; split; [by rewrite app_nil_r|done]|].
    assert (Hasked : forall ev,
              In ev (flat_map (consulted (settingsCache w) (orEmpty options))
                       (first :: rest)) ->
              exists settingInfo,
                In settingInfo (first :: rest)
                /\ ev = CanThis (js_get (orEmpty options) "context") Edit
                          (Some (e_key settingInfo)))
      by (intros ev; apply consulted_events).
    destruct (verdict _).
    + eexists. split; [reflexivity|]. intros ev Hev. left. by apply Hasked.
    + destruct (checkObject (first :: rest)) as [e|checkedData].
      * eexists. split.
        { cbn [snd log add_logs add_log]. rewrite <- app_assoc. reflexivity. }
        intros ev Hev. apply in_app_iff in Hev as [Hev|[<-|[]]];
          [left; by apply Hasked|right; by left].
      * assert (Hevs : forall ev,
                  In ev (flat_map (consulted (settingsCache w) (orEmpty options))
                           (first :: rest)
                         ++ [CheckObject (first :: rest);
                             SettingsEdit checkedData (orEmpty options)]) ->
                  (exists settingInfo,
                     In settingInfo (first :: rest)
                     /\ ev = CanThis (js_get (orEmpty options) "context") Edit
                               (Some (e_key settingInfo)))
                  \/ ev = CheckObject (first :: rest)
                  \/ (exists checkedData0,
                        @inr JsError (list Entry) checkedData
                        = inr checkedData0
                        /\ ev = SettingsEdit checkedData0 (orEmpty options))).
        { intros ev Hev. apply in_app_iff in Hev as [Hev|[<-|[<-|[]]]].
          - left. by apply Hasked.
          - right. by left.
          - right. right. by exists checkedData. }
        destruct (Settings_edit checkedData (orEmpty options));
          (eexists; split;
           [cbn [snd log add_logs add_log]; rewrite <- !app_assoc; reflexivity
           |exact Hevs]).
  - intros first rest e Hb Hkey. rewrite edit_run. cbv zeta.
    rewrite Hbatch, canEditAllSettings_run, Hb. cbn [fst snd].
    destruct (String.eqb_spec (e_key first) "permalinks"); [done|].
    destruct (verdict _); [|discriminate]. by intros [= ->].
  - intros first rest Hb Hkey Hauth. rewrite <- Htype.
    rewrite Hb in Hauth |- *. rewrite Hb in Hbatch.
    exact (edit_authorized_run object options w first rest Hbatch Hkey Hauth).
  - rewrite edit_run. cbv zeta. rewrite Hbatch, Htype.
    destruct batch as [|first rest]; [exact I|].
    destruct (String.eqb (e_key first) "permalinks"); [exact I|].
    destruct (verdict _); [exact I|].
    destruct (checkObject (first :: rest)) as [e|checkedData]; [exact I|].
    destruct (Settings_edit checkedData (orEmpty options)) as [e|models] eqn:Hm;
      [exact I|].
    by exists checkedData, models.
Qed.

(** C9.  [edit] works on the batch made of the entries of the caller whose
    key is not [type], in their order, each with its value when that is a
    string and with [JSON.stringify] of its value otherwise, and filters its
    result by the value, made a string in the same way, of the first entry
    with key [type].  It is the first entry of that batch that the
    [permalinks] test looks at; the permission engine is asked about keys of
    that batch only, the document checker is handed that batch and nothing
    else, and the model what the checker made of it; when
    [canEditAllSettings] rejects that batch the edit is rejected as it is
    and ends there; when every entry of the batch is authorized these calls
    are made, in this order; and a result is made of the models the model
    returned for that batch, filtered by that type. *)
Theorem edit_normalization object options w :
  let raw := rawSettings object (orEmpty options) in
  let valueOf := fun setting : RawEntry =>
    match r_value setting with
    | JString value => Some value
    | value => JSON_stringify value
    end in
  let batch :=
    map (fun setting => mkEntry (r_key setting) (valueOf setting))
      (List.filter (fun setting => negb (String.eqb (r_key setting) "type"))
         raw) in
  let type :=
    match List.find (fun setting => String.eqb (r_key setting) "type") raw with
    | Some setting => valueOf setting
    | None => None
    end in
  (forall first rest,
     batch = first :: rest ->
     e_key first = "permalinks" ->
     edit object options w = (Rejected resourceNotFound, w))
  /\ (exists evs,
        log (snd (edit object options w)) = log w ++ evs
        /\ forall ev,
             In ev evs ->
             (exists settingInfo,
                In settingInfo batch
                /\ ev = CanThis (js_get (orEmpty options) "context") Edit
                          (Some (e_key settingInfo)))
             \/ ev = CheckObject batch
             \/ (exists checkedData,
                   checkObject batch = inr checkedData
                   /\ ev = SettingsEdit checkedData (orEmpty options)))
  /\ (forall first rest e,
        batch = first :: rest ->
        e_key first <> "permalinks" ->
        fst (canEditAllSettings batch (orEmpty options) w) = Rejected e ->
        edit object options w
        = (Rejected e, snd (canEditAllSettings batch (orEmpty options) w)))
  /\ (forall first rest,
        batch = first :: rest ->
        e_key first <> "permalinks" ->
        Forall (authorized (settingsCache w) (orEmpty options)) batch ->
        fst (edit object options w)
        = match checkObject batch with
          | inl e => Rejected e
          | inr checkedData =>
              match Settings_edit checkedData (orEmpty options) with
              | inl e => Rejected e
              | inr models => Resolved (settingsResult (keyBy models) type)
              end
          end
        /\ log (snd (edit object options w))
           = log w
             ++ map (fun settingInfo =>
                       CanThis (js_get (orEmpty options) "context") Edit
                         (Some (e_key settingInfo))) batch
             ++ CheckObject batch
                :: match checkObject batch with
                   | inl _ => []
                   | inr checkedData =>
                       [SettingsEdit checkedData (orEmpty options)]
                   end)
  /\ match fst (edit object options w) with
     | Resolved result =>
         exists checkedData models,
           checkObject batch = inr checkedData
           /\ Settings_edit checkedData (orEmpty options) = inr models
           /\ result = settingsResult (keyBy models) type
     | _ => True
     end.
Proof.
  intros raw valueOf batch type.
  apply (edit_on_batch object options w batch type).
  - exact (withoutType_clean raw).
  - exact (typeOf_clean raw).
Qed.

(** *** The batch with an entry for active_theme *)

Lemma checkOf_rejected cache options settingInfo err :
  checkOf cache options settingInfo = AlreadyRejected err ->
  (settingsCache_get cache (e_key settingInfo) = None
   /\ err = problemFindingSetting (e_key settingInfo))
  \/ (e_key settingInfo = "active_theme" /\ err = activeThemeSetViaAPI)
  \/ (exists setting,
        settingsCache_get cache (e_key settingInfo) = Some setting
        /\ s_type setting = "core"
        /\ isInternal (js_get options "context") = false
        /\ err = accessCoreSettingFromExtReq).
Proof.
  unfold checkOf.
  destruct (settingsCache_get cache (e_key settingInfo)) as [setting|] eqn:Hget.
  - apply settingsCache_get_key in Hget as Hkey.
    destruct (String.eqb_spec (s_key setting) "active_theme") as [Hat|_].
    + intros [= <-]. right. left. by rewrite <- Hkey.
    + destruct (String.eqb_spec (s_type setting) "core") as [Htype|_];
        [|discriminate]. simpl.
      destruct (isInternal (js_get options "context")) eqn:Hctx;
        [discriminate|]. simpl.
      intros [= <-]. right. right. by exists setting.
  - intros [= <-]. by left.
Qed.

Lemma first_rejected_split cache options settingsInfo x :
  In x settingsInfo ->
  pending (checkOf cache options x) = false ->
  exists pre settingInfo post err,
    settingsInfo = pre ++ settingInfo :: post
    /\ forallb pending (map (checkOf cache options) pre) = true
    /\ checkOf cache options settingInfo = AlreadyRejected err.
Proof.
  induction settingsInfo as [|y rest IH]; [done|]. intros Hin Hx.
  destruct (checkOf cache options y) as [err|settles] eqn:Hy.
  - by exists [], y, rest, err.
  - destruct Hin as [<-|Hin]; [by rewrite Hy in Hx|].
    destruct (IH Hin Hx) as (pre & s & post & err & -> & Hpre & Hs).
    exists (y :: pre), s, post, err. split; [reflexivity|].
    split; [|exact Hs]. simpl. by rewrite Hy.
Qed.

Lemma checks_pending options (pre : list Entry) w :
  forallb pending (map (checkOf (settingsCache w) options) pre) = true ->
  Forall (fun x => exists settles,
            fst (check options x w) = Resolved (Pending settles)) pre.
Proof.
  induction pre as [|x rest IH]; simpl; [constructor|].
  intros H. apply andb_true_iff in H as [Hx Hrest].
  constructor; [|by apply IH]. rewrite checkOf_fst.
  destruct (checkOf (settingsCache w) options x) as [e|settles];
    [discriminate|by exists settles].
Qed.

Lemma checkOf_active_theme_rejected cache options settingInfo :
  e_key settingInfo = "active_theme" ->
  pending (checkOf cache options settingInfo) = false.
Proof.
  intros Hkey. unfold checkOf. rewrite Hkey.
  destruct (settingsCache_get cache "active_theme") as [setting|] eqn:Hget;
    [|reflexivity].
  apply settingsCache_get_key in Hget. by rewrite Hget.
Qed.


(** *** upload *)

(** X14.  [upload] stops before it touches a file when the permission
    check fails, with the error of that check; and when there is no
    [routes.yaml] yet, the backup copy fails with [ENOENT]: the uploaded
    file is not copied and the site app is not reloaded, so an upload cannot
    put a first [routes.yaml] in place. *)
Theorem upload_without_permission_or_artifact options w :
  (forall e,
     handlePermissions "settings" "edit" (o_context options) = Some e ->
     upload options w
     = (Rejected e,
        add_log (HandlePermissions "settings" "edit" (o_context options)) w))
  /\ (handlePermissions "settings" "edit" (o_context options) = None ->
      files w !! RoutesYaml = None ->
      upload options w
      = (Rejected (SystemError (Some "ENOENT") "no such file or directory"),
         add_log (FsCopy RoutesYaml (RoutesBackup now))
           (add_log (HandlePermissions "settings" "edit" (o_context options))
              w))).
Proof.
  split.
  - intros e He. rewrite upload_run. cbv zeta. by rewrite He.
  - intros Hperm HA. rewrite upload_run. cbv zeta. rewrite Hperm, HA.
    unfold fs_copy. simpl. by rewrite HA.
Qed.



Lemma reloads_app l1 l2 : reloads (l1 ++ l2) = reloads l1 + reloads l2.
Proof. unfold reloads. by rewrite List.filter_app, length_app. Qed.

Lemma fs_copy_frame src dest w p :
  p <> dest ->
  files (snd (fs_copy src dest w)) !! p = files w !! p.
Proof.
  intros Hp. unfold fs_copy. destruct (files w !! src); [|reflexivity].
  destruct (decide (src = dest)); [reflexivity|].
  simpl. by rewrite lookup_insert_ne.
Qed.

(** X17.  Whatever an upload does, it never throws, it leaves the settings
    cache as it was, it writes no file but [routes.yaml] and the backup of
    this upload, and it reloads the site app twice at most. *)
Theorem upload_frame options w :
  match fst (upload options w) with Thrown _ => False | _ => True end
  /\ settingsCache (snd (upload options w)) = settingsCache w
  /\ (forall p,
        p <> RoutesYaml -> p <> RoutesBackup now ->
        files (snd (upload options w)) !! p = files w !! p)
  /\ reloads (log (snd (upload options w))) <= reloads (log w) + 2.
Proof.
  rewrite upload_run. cbv zeta.
  destruct (handlePermissions "settings" "edit" (o_context options)).
  { simpl. rewrite reloads_app. unfold reloads. simpl.
    repeat split; auto with lia. }
  destruct (files w !! RoutesYaml) as [A|] eqn:HA.
  2:{ unfold fs_copy. simpl. rewrite HA. simpl. rewrite !reloads_app.
      unfold reloads. simpl. repeat split; auto with lia. }
  change (files (write_file (RoutesBackup now) A
                   (add_log (FsCopy RoutesYaml (RoutesBackup now))
                      (add_log (HandlePermissions "settings" "edit"
                                  (o_context options)) w))))
    with (files (write_file (RoutesBackup now) A w)).
  assert (Hfailed :
    let r := fs_copy (o_path options) RoutesYaml
               (write_file (RoutesBackup now) A
                  (add_log (FsCopy RoutesYaml (RoutesBackup now))
                     (add_log (HandlePermissions "settings" "edit"
                                 (o_context options)) w))) in
    (exists e, fst r = Rejected e) ->
    match fst r with Thrown _ => False | _ => True end
    /\ settingsCache (snd r) = settingsCache w
    /\ (forall p, p <> RoutesYaml -> p <> RoutesBackup now ->
                  files (snd r) !! p = files w !! p)
    /\ reloads (log (snd r)) <= reloads (log w) + 2).
  { cbv zeta. intros [e He]. rewrite He. split; [exact I|]. split.
    - unfold fs_copy. by repeat case_match.
    - split.
      + intros p Hp1 Hp2. rewrite fs_copy_frame by exact Hp1. simpl.
        by rewrite lookup_insert_ne.
      + unfold fs_copy. repeat case_match; simpl; rewrite !reloads_app;
          unfold reloads; simpl; lia. }
  destruct (files (write_file (RoutesBackup now) A w) !! o_path options)
    as [B|] eqn:HB.
  2:{ apply Hfailed. apply fs_copy_rejected. by left. }
  destruct (decide (o_path options = RoutesYaml)) as [Heq|Hne].
  { apply Hfailed. apply fs_copy_rejected. by right. }
  destruct (siteApp_reload (staged options A B w)).
  - split; [exact I|]. split; [reflexivity|]. split.
    + intros p Hp1 Hp2. unfold restored, staged. simpl.
      by rewrite !lookup_insert_ne.
    + cbn [snd].
      change (log (add_log SiteAppReload (restored options A B w)))
        with (log (restored options A B w) ++ [SiteAppReload]).
      rewrite restored_log, !reloads_app. unfold reloads. simpl. lia.
  - split; [exact I|]. split; [reflexivity|]. split.
    + intros p Hp1 Hp2. unfold staged. simpl. by rewrite !lookup_insert_ne.
    + cbn [snd].
      change (log (add_log SiteAppReload (staged options A B w)))
        with (log (staged options A B w) ++ [SiteAppReload]).
      rewrite staged_log, !reloads_app. unfold reloads. simpl. lia.
Qed.


(** *** download *)

(** X19.  The error handler of [download] also gets the failure of the
    permission check: the file is not read; an error of the [common.errors]
    classes, such as the permission error, is passed on as it is, any other
    error is wrapped in a not-found error, and a failure whose code is
    [ENOENT] makes the download resolve with [[]]. *)
Theorem download_without_permission options w e :
  handlePermissions "settings" "browse" (o_context options) = Some e ->
  download options w
  = (if bool_decide (err_code e = Some "ENOENT") then Resolved EmptyArray
     else if isIgnitionError e then Rejected e
     else Rejected (GhostError NotFoundError None None None (Some e)),
     add_log (HandlePermissions "settings" "browse" (o_context options)) w).
Proof.
  intros Hperm. unfold download, catch, handlePermissions_call. promise_steps.
  rewrite Hperm. simpl.
  destruct (bool_decide (err_code e = Some "ENOENT")); [reflexivity|].
  by destruct (isIgnitionError e).
Qed.

(** X20.  [download] never throws and changes neither the cache nor a
    file.  It resolves with a text only when the permission check passed
    and [routes.yaml] holds that text; and the reason of a rejection is
    always an error of the [common.errors] classes. *)
Theorem download_classified options w :
  match fst (download options w) with
  | Resolved (FileText contents) =>
      handlePermissions "settings" "browse" (o_context options) = None
      /\ files w !! RoutesYaml = Some contents
  | Resolved EmptyArray => True
  | Rejected e => isIgnitionError e = true
  | Thrown _ => False
  end
  /\ settingsCache (snd (download options w)) = settingsCache w
  /\ files (snd (download options w)) = files w.
Proof.
  unfold download, catch, handlePermissions_call, fs_readFile. promise_steps.
  destruct (handlePermissions "settings" "browse" (o_context options))
    as [e|] eqn:Hperm; simpl.
  - destruct (bool_decide (err_code e = Some "ENOENT")); simpl; [done|].
    by destruct (isIgnitionError e) eqn:He; simpl.
  - destruct (files w !! RoutesYaml) as [contents|] eqn:Hfile; simpl; [|done].
    destruct (readFile_fault _ RoutesYaml) as [e|]; simpl; [|done].
    destruct (bool_decide (err_code e = Some "ENOENT")); simpl; [done|].
    by destruct (isIgnitionError e) eqn:He; simpl.
Qed.

End SettingsApi.

(** ** Examples *)

Example split_types : split "," "blog,theme" = ["blog"; "theme"].
Proof. reflexivity. Qed.

Example split_trailing : split "," "blog," = ["blog"; ""].
Proof. reflexivity. Qed.

(** The shorthand [edit('title', 'X')]: the value is also the options, so
    there is no context. *)
Example edit_shorthand :
  edit sampleStringify allowAll checkPass editAll (EditKey "title")
    (JString "X") sampleWorld
  = (Resolved (mkResult [mkSetting "" "title" "X" "blog"] None),
     mkWorld sampleCache ∅
       [CanThis JUndefined Edit (Some "title");
        CheckObject [mkEntry "title" (Some "X")];
        SettingsEdit [mkEntry "title" (Some "X")] (JString "X")]).
Proof. reflexivity. Qed.

(** A signed-in user who is not internal browses neither the core settings
    nor [permalinks]. *)
Example browse_as_user :
  fst (browse allowAll
         (Some (mkBrowse None (JObject [("user", JNumber 1)]))) sampleWorld)
  = Resolved (SettingsResult
                (mkResult [mkSetting "1" "title" "Ghost" "blog";
                           mkSetting "3" "active_theme" "casper" "theme"]
                   None)).
Proof. reflexivity. Qed.

(** When the second reload throws too, that is what the caller gets. *)
Example upload_secondary_failure :
  fst (upload grantAll reloadNever "2019-01-01-00-00-00"
         (mkFileOptions (OtherFile "upload") JUndefined) siteWorld)
  = Rejected (SystemError None "second reload").
Proof. reflexivity. Qed.

(** ** The claims, on the sample data *)

Lemma core_setting_needs_internal_context_witness :
  read allowAll (ReadKey "db_hash") sampleWorld
  = (Rejected accessCoreSettingFromExtReq, sampleWorld)
  /\ fst (edit sampleStringify allowAll checkPass editAll
            (EditSettings [mkRaw "title" (JString "X");
                           mkRaw "db_hash" (JString "x")])
            JUndefined sampleWorld)
     = Rejected accessCoreSettingFromExtReq.
Proof.
  destruct (core_setting_needs_internal_context sampleStringify allowAll
              checkPass editAll sampleWorld) as (Hread & _ & Hedit).
  split.
  - apply (Hread (ReadKey "db_hash") (mkSetting "4" "db_hash" "abc" "core"));
      reflexivity.
  - apply (Hedit (EditSettings [mkRaw "title" (JString "X");
                                mkRaw "db_hash" (JString "x")]) JUndefined
             [mkEntry "title" (Some "X")] (mkEntry "db_hash" (Some "x")) []
             (mkSetting "4" "db_hash" "abc" "core")); try reflexivity.
    + discriminate.
    + discriminate.
    + constructor; [|constructor]. eexists. reflexivity.
Defined.

(** Against C1 as it is stated: the edit of a batch with a core setting,
    from no context, is rejected with a not-found error when an unknown key
    comes first; and the edit of a core setting whose key is [active_theme]
    is a bad request. *)
Lemma core_setting_edit_other_errors :
  fst (edit sampleStringify allowAll checkPass editAll
         (EditSettings [mkRaw "nope" (JString "X");
                        mkRaw "db_hash" (JString "x")])
         JUndefined sampleWorld)
  = Rejected (problemFindingSetting "nope")
  /\ s_type <$> settingsCache_get (settingsCache reservedWorld) "active_theme"
     = Some "core"
  /\ fst (edit sampleStringify allowAll checkPass editAll
            (EditSettings [mkRaw "active_theme" (JString "x")])
            JUndefined reservedWorld)
     = Rejected activeThemeSetViaAPI.
Proof. repeat split. Qed.




Lemma permalinks_hidden_witness :
  (exists e,
     read allowAll
       (ReadObject "permalinks" (JObject [("internal", JBool true)]))
       sampleWorld
     = (Rejected e, sampleWorld)
     /\ errorTypeOf e = Some NotFoundError)
  /\ edit sampleStringify allowAll checkPass editAll
       (EditSettings [mkRaw "type" (JString "blog");
                      mkRaw "permalinks" (JString "/x/");
                      mkRaw "title" (JString "X")])
       internalOptions sampleWorld
     = (Rejected resourceNotFound, sampleWorld).
Proof.
  destruct (permalinks_hidden sampleStringify allowAll checkPass editAll
              sampleWorld) as [Hread Hedit].
  split.
  - apply Hread; [reflexivity|]. intros setting Hget Htype.
    injection Hget as <-. discriminate.
  - apply (Hedit _ _ (mkEntry "permalinks" (Some "/x/"))
             [mkEntry "title" (Some "X")]); reflexivity.
Defined.

(** Against C4 as it is stated: with [permalinks] in the second place the
    edit goes through and the model is handed the entry; after
    [active_theme] the error is the bad request; and [read] of a
    [permalinks] of type [core], from no context, is refused for lack of
    permission. *)
Lemma permalinks_edited_or_other_error :
  persisted
    (log (snd (edit sampleStringify allowAll checkPass editAll
                 (EditSettings [mkRaw "title" (JString "X");
                                mkRaw "permalinks" (JString "/x/")])
                 internalOptions sampleWorld)))
  = [[mkEntry "title" (Some "X"); mkEntry "permalinks" (Some "/x/")]]
  /\ fst (edit sampleStringify allowAll checkPass editAll
            (EditSettings [mkRaw "title" (JString "X");
                           mkRaw "permalinks" (JString "/x/")])
            internalOptions sampleWorld)
     = Resolved (mkResult [mkSetting "" "title" "X" "blog";
                           mkSetting "" "permalinks" "/x/" "blog"] None)
  /\ fst (edit sampleStringify allowAll checkPass editAll
            (EditSettings [mkRaw "active_theme" (JString "x");
                           mkRaw "permalinks" (JString "/x/")])
            internalOptions sampleWorld)
     = Rejected activeThemeSetViaAPI
  /\ read allowAll (ReadKey "permalinks") reservedWorld
     = (Rejected accessCoreSettingFromExtReq, reservedWorld).
Proof. repeat split. Qed.



Lemma edit_all_or_nothing_witness :
  (exists e,
     fst (edit sampleStringify allowTitleOnly checkPass editAll
            (EditSettings [mkRaw "title" (JString "X");
                           mkRaw "permalinks" (JString "/x/")])
            userOptions sampleWorld)
     = Rejected e)
  /\ persisted
       (log (snd (edit sampleStringify allowTitleOnly checkPass editAll
                    (EditSettings [mkRaw "title" (JString "X");
                                   mkRaw "permalinks" (JString "/x/")])
                    userOptions sampleWorld)))
     = persisted (log sampleWorld).
Proof.
  apply (edit_all_or_nothing sampleStringify allowTitleOnly checkPass editAll
           (EditSettings [mkRaw "title" (JString "X");
                          mkRaw "permalinks" (JString "/x/")])
           userOptions sampleWorld (mkEntry "permalinks" (Some "/x/"))
           (Pending (Some noPermissionToEditSettings))).
  - right. left. reflexivity.
  - reflexivity.
  - reflexivity.
Defined.

Lemma browse_without_context_witness :
  exists l,
    browse allowAll (Some (mkBrowse (Some "blog,theme") JNull)) sampleWorld
    = (Resolved (SettingsArray l), sampleWorld)
    /\ Forall (fun setting => s_type setting = "blog") l
    /\ List.filter
         (fun setting => negb (String.eqb (s_key setting) "permalinks")) l
       = [mkSetting "1" "title" "Ghost" "blog"].
Proof.
  destruct (browse_without_context allowAll
              (Some (mkBrowse (Some "blog,theme") JNull)) sampleWorld)
    as (l & Hrun & Hblog & Hexact & _).
  - reflexivity.
  - exists l. split; [exact Hrun|]. split; [exact Hblog|].
    rewrite Hexact. reflexivity.
Defined.

(** Against C7 as it is stated: with no context [permalinks] is among the
    settings returned when it is of type [blog]; and with a type filter
    that leaves [blog] out, no setting of type [blog] is returned. *)
Lemma browse_without_context_returns_permalinks :
  browse allowAll None sampleWorld
  = (Resolved (SettingsArray [mkSetting "1" "title" "Ghost" "blog";
                              mkSetting "2" "permalinks" "/:slug/" "blog"]),
     sampleWorld)
  /\ browse allowAll (Some (mkBrowse (Some "theme") JUndefined)) sampleWorld
     = (Resolved (SettingsArray []), sampleWorld).
Proof. repeat split. Qed.

Lemma download_outcomes_witness :
  download grantAll noFault (mkFileOptions RoutesYaml JUndefined) sampleWorld
  = (Resolved EmptyArray,
     mkWorld sampleCache ∅
       [HandlePermissions "settings" "browse" JUndefined;
        FsReadFile RoutesYaml])
  /\ fst (download grantAll accessFault (mkFileOptions RoutesYaml JUndefined)
            siteWorld)
     = Rejected (GhostError NotFoundError None None None
                   (Some (SystemError (Some "EACCES") "permission denied")))
  /\ fst (download grantAll upFault (mkFileOptions RoutesYaml JUndefined)
            siteWorld)
     = Rejected (GhostError InternalServerError None None None None)
  /\ fst (download grantAll noFault (mkFileOptions RoutesYaml JUndefined)
            siteWorld)
     = Resolved (FileText "routes").
Proof.
  split; [|split; [|split]].
  - destruct (download_outcomes grantAll noFault
                (mkFileOptions RoutesYaml JUndefined) sampleWorld eq_refl)
      as [Hnone _].
    apply Hnone. reflexivity.
  - destruct (download_outcomes grantAll accessFault
                (mkFileOptions RoutesYaml JUndefined) siteWorld eq_refl)
      as (_ & Hfault & _).
    rewrite (Hfault "routes" (SystemError (Some "EACCES") "permission denied"));
      [reflexivity|reflexivity|reflexivity|discriminate].
  - destruct (download_outcomes grantAll upFault
                (mkFileOptions RoutesYaml JUndefined) siteWorld eq_refl)
      as (_ & Hfault & _).
    rewrite (Hfault "routes" (GhostError InternalServerError None None None None));
      [reflexivity|reflexivity|reflexivity|discriminate].
  - destruct (download_outcomes grantAll noFault
                (mkFileOptions RoutesYaml JUndefined) siteWorld eq_refl)
      as (_ & _ & Hread).
    rewrite (Hread "routes"); reflexivity.
Defined.

Lemma edit_normalization_witness :
  fst (edit sampleStringify allowAll checkPass editAll
         (EditSettings [mkRaw "title" JNull; mkRaw "type" (JString "blog");
                        mkRaw "permalinks" (JBool true)])
         JUndefined sampleWorld)
  = Resolved (mkResult [mkSetting "" "title" "null" "blog";
                        mkSetting "" "permalinks" "true" "blog"]
                (Some "blog"))
  /\ log (snd (edit sampleStringify allowAll checkPass editAll
                 (EditSettings [mkRaw "title" JNull;
                                mkRaw "type" (JString "blog");
                                mkRaw "permalinks" (JBool true)])
                 JUndefined sampleWorld))
     = [CanThis JUndefined Edit (Some "title");
        CanThis JUndefined Edit (Some "permalinks");
        CheckObject [mkEntry "title" (Some "null");
                     mkEntry "permalinks" (Some "true")];
        SettingsEdit [mkEntry "title" (Some "null");
                      mkEntry "permalinks" (Some "true")] (JObject [])].
Proof.
  pose proof (edit_normalization sampleStringify allowAll checkPass editAll
                (EditSettings [mkRaw "title" JNull;
                               mkRaw "type" (JString "blog");
                               mkRaw "permalinks" (JBool true)])
                JUndefined sampleWorld) as H.
  cbv beta zeta in H. destruct H as (_ & _ & _ & Hauthorized & _).
  apply (Hauthorized (mkEntry "title" (Some "null"))
           [mkEntry "permalinks" (Some "true")]).
  - reflexivity.
  - discriminate.
  - constructor; [|constructor; [|constructor]].
    + exists (mkSetting "1" "title" "Ghost" "blog").
      repeat split; discriminate.
    + exists (mkSetting "2" "permalinks" "/:slug/" "blog").
      repeat split; discriminate.
Defined.

Lemma edit_of_nothing_throws_witness :
  edit sampleStringify allowAll checkPass editAll (EditSettings [])
    internalOptions sampleWorld
  = (Thrown (TypeError "Cannot read property 'key' of undefined"), sampleWorld)
  /\ edit sampleStringify allowAll checkPass editAll
       (EditSettings [mkRaw "type" (JString "blog")]) internalOptions sampleWorld
     = (Thrown (TypeError "Cannot read property 'key' of undefined"),
        sampleWorld)
  /\ edit sampleStringify allowAll checkPass editAll (EditKey "type")
       (JString "blog") sampleWorld
     = (Thrown (TypeError "Cannot read property 'key' of undefined"),
        sampleWorld).
Proof.
  split; [|split];
    apply (edit_of_nothing_throws sampleStringify allowAll checkPass editAll).
  - constructor.
  - constructor; [reflexivity|constructor].
  - constructor; [reflexivity|constructor].
Defined.

(** ** The further properties, on the sample data *)

Lemma settingsFilter_by_types_witness :
  settingsFilter sampleCache (Some "blog,core")
  = [mkSetting "1" "title" "Ghost" "blog";
     mkSetting "2" "permalinks" "/:slug/" "blog";
     mkSetting "4" "db_hash" "abc" "core"].
Proof.
  destruct (settingsFilter_by_types sampleCache ["blog"; "core"]) as [Heq _].
  - discriminate.
  - repeat constructor.
  - discriminate.
  - exact Heq.
Defined.

Lemma browse_refused_witness :
  browse refuseAll (Some (mkBrowse None (JObject [("user", JNumber 1)])))
    sampleWorld
  = (Rejected (SystemError None "no permission"),
     add_log (CanThis (JObject [("user", JNumber 1)]) Browse None) sampleWorld).
Proof.
  apply (browse_refused refuseAll
           (mkBrowse None (JObject [("user", JNumber 1)])) sampleWorld);
    reflexivity.
Defined.

Lemma browse_visible_witness :
  exists result,
    fst (browse allowAll
           (Some (mkBrowse None (JObject [("internal", JBool true)])))
           sampleWorld)
    = Resolved (SettingsResult result)
    /\ In (mkSetting "4" "db_hash" "abc" "core") (settings result).
Proof.
  destruct (browse_visible allowAll
              (mkBrowse None (JObject [("internal", JBool true)])) sampleWorld)
    as (result & Hrun & _ & Hin); [reflexivity|reflexivity|].
  exists result. split; [by rewrite Hrun|].
  apply Hin. split; [|by left]. simpl. auto.
Defined.

Lemma read_blog_setting_witness :
  read refuseAll (ReadKey "title") sampleWorld
  = (Resolved (mkResult [mkSetting "1" "title" "Ghost" "blog"] None),
     sampleWorld).
Proof.
  apply (read_blog_setting refuseAll (ReadKey "title") sampleWorld);
    [reflexivity|reflexivity|discriminate].
Defined.

Lemma read_asks_engine_witness :
  read refuseAll
    (ReadObject "db_hash" (JObject [("internal", JBool true)])) sampleWorld
  = (Rejected noPermissionToReadSettings,
     add_log (CanThis (JObject [("internal", JBool true)]) Read
                (Some "db_hash")) sampleWorld).
Proof.
  apply (read_asks_engine refuseAll
           (ReadObject "db_hash" (JObject [("internal", JBool true)]))
           sampleWorld (mkSetting "4" "db_hash" "abc" "core"));
    [reflexivity|discriminate|reflexivity|discriminate].
Defined.

Lemma edit_persists_only_authorized_witness :
  exists first rest checkedData,
    withoutType
      (cleanData sampleStringify
         (EditSettings [mkRaw "title" (JString "X")]) (orEmpty userOptions))
    = first :: rest
    /\ e_key first <> "permalinks"
    /\ Forall (authorized allowAll sampleCache (orEmpty userOptions))
         (first :: rest)
    /\ checkPass (first :: rest) = inr checkedData
    /\ persisted
         (log (snd (edit sampleStringify allowAll checkPass editAll
                      (EditSettings [mkRaw "title" (JString "X")])
                      userOptions sampleWorld)))
       = persisted (log sampleWorld) ++ [checkedData].
Proof.
  apply (edit_persists_only_authorized sampleStringify allowAll checkPass
           editAll (EditSettings [mkRaw "title" (JString "X")]) userOptions
           sampleWorld).
  discriminate.
Defined.

Lemma edit_of_authorized_batch_witness :
  fst (edit sampleStringify allowAll checkPass editAll
         (EditSettings [mkRaw "title" (JString "X")]) userOptions sampleWorld)
  = Resolved (mkResult [mkSetting "" "title" "X" "blog"] None)
  /\ log (snd (edit sampleStringify allowAll checkPass editAll
                 (EditSettings [mkRaw "title" (JString "X")]) userOptions
                 sampleWorld))
     = [CanThis (JObject [("user", JNumber 1)]) Edit (Some "title");
        CheckObject [mkEntry "title" (Some "X")];
        SettingsEdit [mkEntry "title" (Some "X")] userOptions].
Proof.
  apply (edit_of_authorized_batch sampleStringify allowAll checkPass editAll
           (EditSettings [mkRaw "title" (JString "X")]) userOptions sampleWorld
           (mkEntry "title" (Some "X")) []).
  - reflexivity.
  - discriminate.
  - constructor; [|constructor].
    exists (mkSetting "1" "title" "Ghost" "blog").
    repeat split; discriminate.
Defined.

Lemma edit_shorthand_falsy_witness :
  log (snd (edit sampleStringify allowAll checkPass editAll (EditKey "title")
              (JString "") sampleWorld))
  = [CanThis JUndefined Edit (Some "title");
     CheckObject [mkEntry "title" (Some "{}")];
     SettingsEdit [mkEntry "title" (Some "{}")] (JObject [])].
Proof.
  apply (edit_shorthand_falsy sampleStringify allowAll checkPass editAll
           "title" (JString "") sampleWorld).
  - reflexivity.
  - discriminate.
  - discriminate.
  - exists (mkSetting "1" "title" "Ghost" "blog").
    repeat split; discriminate.
Defined.

Lemma upload_without_permission_or_artifact_witness :
  upload denyAccess reloadAlways "2019-01-01-00-00-00"
    (mkFileOptions (OtherFile "upload") JUndefined) readyWorld
  = (Rejected (GhostError NoPermissionError None None None None),
     add_log (HandlePermissions "settings" "edit" JUndefined) readyWorld)
  /\ fst (upload grantAll reloadAlways "2019-01-01-00-00-00"
            (mkFileOptions (OtherFile "upload") JUndefined) sampleWorld)
     = Rejected (SystemError (Some "ENOENT") "no such file or directory").
Proof.
  split.
  - apply (upload_without_permission_or_artifact denyAccess reloadAlways
             "2019-01-01-00-00-00"
             (mkFileOptions (OtherFile "upload") JUndefined) readyWorld).
    reflexivity.
  - destruct (upload_without_permission_or_artifact grantAll reloadAlways
                "2019-01-01-00-00-00"
                (mkFileOptions (OtherFile "upload") JUndefined) sampleWorld)
      as [_ Hnone].
    rewrite Hnone; reflexivity.
Defined.




Lemma download_without_permission_witness :
  download denyAccess noFault (mkFileOptions RoutesYaml JUndefined) siteWorld
  = (Rejected (GhostError NoPermissionError None None None None),
     add_log (HandlePermissions "settings" "browse" JUndefined) siteWorld).
Proof.
  rewrite (download_without_permission denyAccess noFault
             (mkFileOptions RoutesYaml JUndefined) siteWorld
             (GhostError NoPermissionError None None None None));
    reflexivity.
Defined.
